(** * create-roblox-ts: the [init] command (src/init.ts)

    A shallow embedding of the project scaffolder: tool probing, option
    resolution from flags and prompts, the pre-flight conflict scan and the
    ordered setup pipeline, followed by the properties of the specification
    that were checked against it. *)

From Stdlib Require Import String Ascii List Bool ZArith Lia.
Import ListNotations.
Local Open Scope string_scope.

(** ** Enumerations and the package-manager registry *)

Module InitMode.
Inductive t : Type := None | Game | Place | Model | Plugin | Package.

(** The string value of each enum member. *)
Definition value (m : t) : string :=
  match m with
  | None => "none"
  | Game => "game"
  | Place => "place"
  | Model => "model"
  | Plugin => "plugin"
  | Package => "package"
  end.

Definition eqb (a b : t) : bool :=
  match a, b with
  | None, None | Game, Game | Place, Place
  | Model, Model | Plugin, Plugin | Package, Package => true
  | _, _ => false
  end.
End InitMode.

Module PackageManager.
Inductive t : Type := NPM | Yarn | Yarn3 | PNPM.

Definition value (m : t) : string :=
  match m with
  | NPM => "npm"
  | Yarn => "yarn"
  | Yarn3 => "yarn3"
  | PNPM => "pnpm"
  end.

Definition eqb (a b : t) : bool :=
  match a, b with
  | NPM, NPM | Yarn, Yarn | Yarn3, Yarn3 | PNPM, PNPM => true
  | _, _ => false
  end.

(** [Object.entries(PackageManager)] / [Object.values(PackageManager)]:
    the members in declaration order. *)
Definition members : list t := [NPM; Yarn; Yarn3; PNPM].
End PackageManager.

Module InitOptions.
(** The flag bag; [None] is JavaScript's [undefined] (flag not given). *)
Record t : Type := {
  yes : option bool;
  git : option bool;
  eslint : option bool;
  prettier : option bool;
  vscode : option bool;
  packageManager : option PackageManager.t
}.
End InitOptions.

Module PackageManagerCommands.
Record t : Type := {
  init : string;
  devInstall : string;
  build : string
}.
End PackageManagerCommands.

Definition packageManagerCommands (m : PackageManager.t) : PackageManagerCommands.t :=
  match m with
  | PackageManager.NPM =>
      {| PackageManagerCommands.init := "npm init -y";
         PackageManagerCommands.devInstall := "npm install --silent -D";
         PackageManagerCommands.build := "npm run build" |}
  | PackageManager.Yarn =>
      {| PackageManagerCommands.init := "yarn init -y";
         PackageManagerCommands.devInstall := "yarn add --silent -D";
         PackageManagerCommands.build := "yarn run build" |}
  | PackageManager.Yarn3 =>
      {| PackageManagerCommands.init := "yarn init -y";
         PackageManagerCommands.devInstall := "yarn add --silent -D";
         PackageManagerCommands.build := "yarn run build" |}
  | PackageManager.PNPM =>
      {| PackageManagerCommands.init := "pnpm init";
         PackageManagerCommands.devInstall := "pnpm install --silent -D";
         PackageManagerCommands.build := "pnpm run build" |}
  end.

Definition COMPILER_VERSION : string := "2.1.0".
Definition RBXTS_SCOPE : string := "@rbxts".

(** ** JavaScript values used by the command *)

(** [a ?? b] on possibly-undefined values. *)
Definition nullish {A : Type} (a b : option A) : option A :=
  match a with
  | Some _ => a
  | None => b
  end.

(** [a ?? b] when [b] is always defined. *)
Definition nullish_or {A : Type} (a : option A) (b : A) : A :=
  match a with
  | Some x => x
  | None => b
  end.

(** [a && b] for a possibly-undefined boolean [a]: a falsy [a] is the result
    as it is ([undefined] stays [undefined]). *)
Definition js_and (a : option bool) (b : bool) : option bool :=
  match a with
  | None => None
  | Some false => Some false
  | Some true => Some b
  end.

(** Parsed JSON / YAML documents.  A number is kept as the text JavaScript
    prints for it.  Objects keep their keys in insertion order. *)
#[warnings="-register-all"]
Inductive Json : Type :=
| JNull
| JBool (b : bool)
| JNum (text : string)
| JStr (s : string)
| JArr (items : list Json)
| JObj (props : list (string * Json)).

(** Property read [o[k]] on an object's own properties. *)
Fixpoint getProp (props : list (string * Json)) (k : string) : option Json :=
  match props with
  | [] => None
  | (k', v) :: rest => if String.eqb k' k then Some v else getProp rest k
  end.

(** Property write [o[k] = v]: an existing key keeps its place, a new key is
    appended. *)
Fixpoint setProp (props : list (string * Json)) (k : string) (v : Json)
  : list (string * Json) :=
  match props with
  | [] => [(k, v)]
  | (k', v') :: rest =>
      if String.eqb k' k then (k, v) :: rest else (k', v') :: setProp rest k v
  end.

(** [Object.assign(target, source)] on own properties. *)
Definition objectAssign (target source : list (string * Json))
  : list (string * Json) :=
  fold_left (fun acc kv => setProp acc (fst kv) (snd kv)) source target.

(** String conversion as done by [+] with a string operand. *)
Fixpoint js_toString (v : Json) : string :=
  match v with
  | JNull => "null"
  | JBool true => "true"
  | JBool false => "false"
  | JNum text => text
  | JStr s => s
  | JArr items =>
      (fix join (l : list Json) : string :=
         match l with
         | [] => ""
         | x :: rest =>
             let here := match x with JNull => "" | _ => js_toString x end in
             match rest with
             | [] => here
             | _ :: _ => here ++ "," ++ join rest
             end
         end) items
  | JObj _ => "[object Object]"
  end.

(** String conversion of a property read, which may be [undefined]. *)
Definition js_toString_opt (v : option Json) : string :=
  match v with
  | Some x => js_toString x
  | None => "undefined"
  end.

(** ** The host: tools, user, working directory

    Everything the command observes from outside is gathered in one record,
    so that a run is a function of the flags, the mode and the host. *)

(** A thrown [Error]. *)
Record Error : Type := { message : string }.

(** A settled promise. *)
Inductive Settled (A : Type) : Type :=
| Fulfilled (value : A)
| Rejected (reason : Error).
Arguments Fulfilled {A} value.
Arguments Rejected {A} reason.

(** What the user does with a question: submit an answer or abort. *)
Inductive Reply (A : Type) : Type :=
| Submit (answer : A)
| Abort.
Arguments Submit {A} answer.
Arguments Abort {A}.

(** What lies at a path of the working directory.  A directory is either
    listable or, for want of read permission, present but refusing to be
    listed; [Special] is anything that is neither a regular file nor a
    directory (a FIFO, a socket, a device).  A symbolic link is kept with
    what it finally leads to ([None]: nothing, the link dangles). *)
Inductive Node : Type :=
| RegularFile
| Directory (entries : list string)
| UnreadableDirectory (entries : list string)
| Special.

Inductive Entry : Type :=
| Absent
| Present (n : Node)
| SymbolicLink (target : option Node).

Record Stats : Type := {
  isFile : bool;
  isDirectory : bool;
  isSymbolicLink : bool
}.

(** The error object [child_process.exec] hands to its callback; [code] is
    kept as its rendering in a template literal. *)
Record ExecException : Type := {
  exc_cmd : string;
  exc_code : string;
  exc_message : string
}.

Inductive ExecResult : Type :=
| ExecOk (stdout : string)
| ExecError (error : ExecException).

(** File locations: under the working directory, next to the compiled
    script ([__dirname]), or under the package root ([__dirname/..]). *)
Inductive Path : Type :=
| InCwd (rel : string)
| InDirname (rel : string)
| InPackageRoot (rel : string).

(** Text handed to a file write, kept as the document it serialises. *)
Inductive Content : Type :=
| JsonText (doc : Json) (indent : string)
| YamlText (doc : Json).

Inductive Event : Type :=
| ELookpath (tool : string)
| EPrompt (name : string)
| EReaddir (p : Path)
| EPathExists (p : Path)
| EStat (p : Path)
| EBenchmark (label : string)
| ECmd (cmdStr : string)
| EReadJson (p : Path)
| EReadFile (p : Path)
| EOutputFile (p : Path) (c : Content)
| EWriteFile (p : Path) (c : Content)
| ECopy (src dst : Path)
| ERemove (p : Path).

Record Host : Type := {
  (** [lookpath(tool)]: the resolved location, [undefined] when the tool is
      not on the search path, or a rejection. *)
  lookpath : string -> Settled (option string);
  (** The user's replies: the cursor position submitted on a select
      question, the value submitted on a confirm question (by name). *)
  replySelect : string -> Reply nat;
  replyConfirm : string -> Reply bool;
  (** Whether kleur emits colour codes. *)
  colors : bool;
  (** [fs.readdir] of a template directory of the package. *)
  templateFiles : InitMode.t -> Settled (list string);
  (** The working directory when the conflict scan runs. *)
  cwdEntry : string -> Entry;
  (** [child_process.exec]: standard output, or the exception. *)
  exec : string -> ExecResult;
  (** Reads made by the pipeline, as they turn out when they are made. *)
  readJson : Path -> Settled Json;
  readFile : Path -> Settled string;
  YAML_parse : string -> Settled Json;
  (** A write, copy or removal the host refuses. *)
  fsFault : Event -> option Error;
  (** The error of a failed file-system read: errno name and path. *)
  errno : string -> Path -> Error
}.

(** ** Runs: a trace of effects and an outcome *)

Inductive Outcome (A : Type) : Type :=
| Returned (a : A)
| Thrown (e : Error)
| Exited (code : Z).
Arguments Returned {A} a.
Arguments Thrown {A} e.
Arguments Exited {A} code.

Definition M (A : Type) : Type := (list Event * Outcome A)%type.

Definition ret {A : Type} (a : A) : M A := ([], Returned a).

Definition bind {A B : Type} (m : M A) (f : A -> M B) : M B :=
  match m with
  | (t, Returned a) => let (t', r) := f a in ((t ++ t')%list, r)
  | (t, Thrown e) => (t, Thrown e)
  | (t, Exited c) => (t, Exited c)
  end.

Declare Scope run_scope.
Delimit Scope run_scope with run.
Notation "x <- c1 ;; c2" := (bind c1 (fun x => c2))
  (at level 61, c1 at next level, right associativity) : run_scope.
Notation "c1 ;; c2" := (bind c1 (fun _ => c2))
  (at level 61, right associativity) : run_scope.
Local Open Scope run_scope.

Definition emit (e : Event) : M unit := ([e], Returned tt).
Definition throw {A : Type} (e : Error) : M A := ([], Thrown e).
(** [process.exit(code)]. *)
Definition process_exit {A : Type} (code : Z) : M A := ([], Exited code).

(** [try { m } catch (error) { h error }]. *)
Definition try_catch {A : Type} (m : M A) (h : Error -> M A) : M A :=
  match m with
  | (t, Thrown e) => let (t', r) := h e in ((t ++ t')%list, r)
  | _ => m
  end.

(** Awaiting a promise the host settles. *)
Definition await {A : Type} (s : Settled A) : M A :=
  match s with
  | Fulfilled v => ret v
  | Rejected e => throw e
  end.

Definition trace {A : Type} (m : M A) : list Event := fst m.
Definition outcome {A : Type} (m : M A) : Outcome A := snd m.

(** Characters that cannot be typed inside a string literal. *)
Definition dquote : string := String (ascii_of_nat 34) EmptyString.
Definition newline : string := String (ascii_of_nat 10) EmptyString.
Definition tab : string := String (ascii_of_nat 9) EmptyString.
Definition escape : string := String (ascii_of_nat 27) EmptyString.

(** ** Tool availability *)

Record ToolAvailability : Type := {
  npmAvailable : bool;
  pnpmAvailable : bool;
  yarnAvailable : bool;
  gitAvailable : bool
}.

(** [v.status === "fulfilled" ? v.value !== undefined : true] *)
Definition settledAvailable (v : Settled (option string)) : bool :=
  match v with
  | Fulfilled (Some _) => true
  | Fulfilled None => false
  | Rejected _ => true
  end.

Definition packageManagerExistance (tools : ToolAvailability)
  (m : PackageManager.t) : bool :=
  match m with
  | PackageManager.NPM => npmAvailable tools
  | PackageManager.PNPM => pnpmAvailable tools
  | PackageManager.Yarn => yarnAvailable tools
  | PackageManager.Yarn3 => yarnAvailable tools
  end.

(** [Object.values(packageManagerExistance).filter((exists) => exists).length],
    the values in the order the object literal lists its keys. *)
Definition packageManagerCount (tools : ToolAvailability) : nat :=
  length
    (filter (fun exists_ : bool => exists_)
       (map (packageManagerExistance tools)
          [PackageManager.NPM; PackageManager.PNPM;
           PackageManager.Yarn; PackageManager.Yarn3])).

(** ** Resolved options *)

Record Resolved : Type := {
  template : InitMode.t;
  git : bool;
  eslint : bool;
  prettier : bool;
  vscode : bool;
  packageManager : PackageManager.t
}.

(** The object [prompts] resolves with: one property per question asked. *)
Record Answers : Type := {
  ans_template : option InitMode.t;
  ans_git : option bool;
  ans_eslint : option bool;
  ans_prettier : option bool;
  ans_vscode : option bool;
  ans_packageManager : option PackageManager.t
}.

(** The choices offered by the package-manager question. *)
Definition packageManagerChoices (tools : ToolAvailability)
  : list PackageManager.t :=
  filter (packageManagerExistance tools) PackageManager.members.

Definition templateChoices : list InitMode.t :=
  [InitMode.Game; InitMode.Model; InitMode.Plugin; InitMode.Package].

(** The [type] functions of the six questions: a question is asked exactly
    when its [type] is not falsy. *)
Definition askTemplate (initMode : InitMode.t) : bool :=
  InitMode.eqb initMode InitMode.None.

Definition isUndefined {A : Type} (a : option A) : bool :=
  match a with
  | Some _ => false
  | None => true
  end.

Definition askGit (argv : InitOptions.t) (tools : ToolAvailability) : bool :=
  isUndefined (InitOptions.git argv) && isUndefined (InitOptions.yes argv)
  && gitAvailable tools.

Definition askEslint (argv : InitOptions.t) : bool :=
  isUndefined (InitOptions.eslint argv) && isUndefined (InitOptions.yes argv).

Definition askPrettier (argv : InitOptions.t) : bool :=
  isUndefined (InitOptions.prettier argv) && isUndefined (InitOptions.yes argv).

Definition askVscode (argv : InitOptions.t) : bool :=
  isUndefined (InitOptions.vscode argv) && isUndefined (InitOptions.yes argv).

Definition askPackageManager (argv : InitOptions.t) (tools : ToolAvailability)
  : bool :=
  isUndefined (InitOptions.packageManager argv)
  && (1 <? packageManagerCount tools)%nat
  && isUndefined (InitOptions.yes argv).

(** The destructuring defaults, used for a property the answers lack. *)
Definition defaultGit (argv : InitOptions.t) (tools : ToolAvailability) : bool :=
  nullish_or
    (nullish (InitOptions.git argv)
       (js_and (InitOptions.yes argv) (gitAvailable tools)))
    false.

Definition defaultEslint (argv : InitOptions.t) : bool :=
  nullish_or (nullish (InitOptions.eslint argv) (InitOptions.yes argv)) false.

Definition defaultPrettier (argv : InitOptions.t) : bool :=
  nullish_or (nullish (InitOptions.prettier argv) (InitOptions.yes argv)) false.

Definition defaultVscode (argv : InitOptions.t) : bool :=
  nullish_or (nullish (InitOptions.vscode argv) (InitOptions.yes argv)) false.

Definition defaultPackageManager (argv : InitOptions.t) : PackageManager.t :=
  nullish_or (InitOptions.packageManager argv) PackageManager.NPM.

Definition destructure (argv : InitOptions.t) (initMode : InitMode.t)
  (tools : ToolAvailability) (answers : Answers) : Resolved :=
  {| template := nullish_or (ans_template answers) initMode;
     git := nullish_or (ans_git answers) (defaultGit argv tools);
     eslint := nullish_or (ans_eslint answers) (defaultEslint argv);
     prettier := nullish_or (ans_prettier answers) (defaultPrettier argv);
     vscode := nullish_or (ans_vscode answers) (defaultVscode argv);
     packageManager :=
       nullish_or (ans_packageManager answers) (defaultPackageManager argv) |}.

(** ** Paths *)

Module paths.
Definition packageJson : string := "package.json".
Definition packageLockJson : string := "package-lock.json".
Definition yarnncOld : string := ".yarnrc".
Definition yarnnc : string := ".yarnrc.yml".
Definition tsconfig : string := "tsconfig.json".
Definition gitignore : string := ".gitignore".
Definition gitattributes : string := ".gitattributes".
Definition eslintrc : string := ".eslintrc.yml".
Definition eslintrcIgnore : string := ".eslintignore".
Definition prettierrc : string := ".prettierrc.yml".
Definition prettierIgnore : string := ".prettierignore".
Definition settings : string := ".vscode/settings.json".
Definition extensions : string := ".vscode/extensions.json".

(** [Object.values(paths)].  Every path is kept relative to the working
    directory: [path.join(cwd, x)] is [x] here, and so is
    [path.relative(cwd, path.join(cwd, x))]. *)
Definition values : list string :=
  [packageJson; packageLockJson; yarnncOld; yarnnc; tsconfig; gitignore;
   gitattributes; eslintrc; eslintrcIgnore; prettierrc; prettierIgnore;
   settings; extensions].
End paths.

Module configTemplate.
Definition gitignore : Path := InDirname "templates/.gitignore".
Definition gitattributes : Path := InDirname "templates/.gitattributes".
Definition eslintrc : Path := InDirname "templates/.eslintrc.yml".
Definition eslintrcIgnore : Path := InDirname "templates/.eslintignore".
Definition prettierrc : Path := InDirname "templates/.prettierrc.yml".
Definition prettierIgnore : Path := InDirname "templates/.prettierignore".
End configTemplate.

(** [path.join(TEMPLATES_DIR, template)] *)
Definition templateDir (template : InitMode.t) : Path :=
  InPackageRoot ("templates/" ++ InitMode.value template).

Section Init.

Variable host : Host.

(** ** Primitives *)

(** [cmd]: run a shell command; a failure is rethrown as an [Error] that
    quotes the command, the exit code and the original message. *)
Definition cmd (cmdStr : string) : M string :=
  emit (ECmd cmdStr) ;;
  match exec host cmdStr with
  | ExecOk stdout => ret stdout
  | ExecError error =>
      throw {| message :=
                 "Command " ++ dquote ++ exc_cmd error ++ dquote
                 ++ " exited with code " ++ exc_code error
                 ++ newline ++ newline ++ exc_message error |}
  end.

(** Modelled from the spec: [benchmark] of ./util/benchmark is not among the
    sources; the spec describes it as a named timing/progress boundary
    around a step.  It announces the label, runs the callback, and lets the
    callback's result or failure through. *)
Definition benchmark {A : Type} (name : string) (callback : M A) : M A :=
  emit (EBenchmark name) ;; callback.

Definition guarded (e : Event) : M unit :=
  emit e ;;
  match fsFault host e with
  | Some err => throw err
  | None => ret tt
  end.

Definition fs_copy (src dst : Path) : M unit := guarded (ECopy src dst).
Definition fs_outputFile (p : Path) (c : Content) : M unit :=
  guarded (EOutputFile p c).
Definition fs_writeFile (p : Path) (c : Content) : M unit :=
  guarded (EWriteFile p c).
Definition fs_remove (p : Path) : M unit := guarded (ERemove p).

Definition fs_readJson (p : Path) : M Json :=
  emit (EReadJson p) ;; await (readJson host p).

Definition fs_readFile (p : Path) : M string :=
  emit (EReadFile p) ;; await (readFile host p).

(** What a path of the working directory leads to, links followed. *)
Definition resolveEntry (e : Entry) : option Node :=
  match e with
  | Absent => None
  | Present n => Some n
  | SymbolicLink target => target
  end.

(** [fs.pathExists] (fs-extra): whether [fs.access] succeeds; it follows
    symbolic links. *)
Definition fs_pathExists (filePath : string) : M bool :=
  emit (EPathExists (InCwd filePath)) ;;
  ret (match resolveEntry (cwdEntry host filePath) with
       | Some _ => true
       | None => false
       end).

(** [fs.stat] follows symbolic links, so the [Stats] it yields describe the
    target and never answer [true] to [isSymbolicLink()]. *)
Definition statsOf (n : Node) : Stats :=
  {| isFile := match n with RegularFile => true | _ => false end;
     isDirectory :=
       match n with
       | Directory _ | UnreadableDirectory _ => true
       | _ => false
       end;
     isSymbolicLink := false |}.

Definition fs_stat (filePath : string) : M Stats :=
  emit (EStat (InCwd filePath)) ;;
  match resolveEntry (cwdEntry host filePath) with
  | Some n => ret (statsOf n)
  | None => throw (errno host "ENOENT" (InCwd filePath))
  end.

(** [fs.readdir] of a path of the working directory: the entries of a
    directory that may be read, [EACCES] for one that may not, [ENOTDIR]
    for anything else that exists. *)
Definition fs_readdir (filePath : string) : M (list string) :=
  emit (EReaddir (InCwd filePath)) ;;
  match resolveEntry (cwdEntry host filePath) with
  | Some (Directory entries) => ret entries
  | Some (UnreadableDirectory _) =>
      throw (errno host "EACCES" (InCwd filePath))
  | Some _ => throw (errno host "ENOTDIR" (InCwd filePath))
  | None => throw (errno host "ENOENT" (InCwd filePath))
  end.

(** [fs.readdir(templateDir)] *)
Definition readTemplateDir (template : InitMode.t) : M (list string) :=
  emit (EReaddir (templateDir template)) ;; await (templateFiles host template).

(** [kleur.yellow] *)
Definition kleur_yellow (v : string) : string :=
  if colors host then escape ++ "[33m" ++ v ++ escape ++ "[39m" else v.

(** ** Probing (lines 94-98) *)

(** The four probes are settled independently; a rejected probe counts as
    an available tool. *)
Definition toolAvailability : ToolAvailability :=
  {| npmAvailable := settledAvailable (lookpath host "npm");
     pnpmAvailable := settledAvailable (lookpath host "pnpm");
     yarnAvailable := settledAvailable (lookpath host "yarn");
     gitAvailable := settledAvailable (lookpath host "git") |}.

Definition probeTools : M ToolAvailability :=
  emit (ELookpath "npm") ;;
  emit (ELookpath "pnpm") ;;
  emit (ELookpath "yarn") ;;
  emit (ELookpath "git") ;;
  ret toolAvailability.

(** ** Prompting (lines 125-200) *)

(** One question of [prompts]: skipped when its [type] is falsy; otherwise
    put to the user, whose abort runs [onCancel], that is
    [process.exit(1)]. *)
Definition ask {A : Type} (type : bool) (name : string) (reply : Reply A)
  : M (option A) :=
  if type then
    emit (EPrompt name) ;;
    match reply with
    | Submit answer => ret (Some answer)
    | Abort => process_exit 1
    end
  else ret None.

Definition confirm (type : bool) (name : string) : M (option bool) :=
  ask type name (replyConfirm host name).

(** A select question yields the value of the choice under the cursor; the
    cursor wraps around the list of choices and so never leaves it. *)
Definition select {A : Type} (type : bool) (name : string) (choices : list A)
  : M (option A) :=
  cursor <- ask type name (replySelect host name) ;;
  ret (match cursor with
       | Some c => nth_error choices (c mod length choices)
       | None => None
       end).

Definition prompts (argv : InitOptions.t) (initMode : InitMode.t)
  (tools : ToolAvailability) : M Answers :=
  a_template <- select (askTemplate initMode) "template" templateChoices ;;
  a_git <- confirm (askGit argv tools) "git" ;;
  a_eslint <- confirm (askEslint argv) "eslint" ;;
  a_prettier <- confirm (askPrettier argv) "prettier" ;;
  a_vscode <- confirm (askVscode argv) "vscode" ;;
  a_packageManager <-
    select (askPackageManager argv tools) "packageManager"
      (packageManagerChoices tools) ;;
  ret {| ans_template := a_template;
         ans_git := a_git;
         ans_eslint := a_eslint;
         ans_prettier := a_prettier;
         ans_vscode := a_vscode;
         ans_packageManager := a_packageManager |}.

(** Lines 111-200: the answers, completed by the destructuring defaults. *)
Definition resolveOptions (argv : InitOptions.t) (initMode : InitMode.t)
  (tools : ToolAvailability) : M Resolved :=
  answers <- prompts argv initMode tools ;;
  ret (destructure argv initMode tools answers).

(** ** Conflict detection (lines 228-256) *)

(** A string is truthy unless it is empty. *)
Definition truthy (s : string) : bool := negb (String.eqb s "").

(** The test of lines 239-243 on an existing path; [readdir] is reached only
    when the first two tests fail. *)
Definition wouldOverwrite (filePath : string) : M bool :=
  stat <- fs_stat filePath ;;
  if isFile stat || isSymbolicLink stat then ret true
  else
    entries <- fs_readdir filePath ;;
    ret (0 <? length entries)%nat.

(** The loop of lines 236-247, [existingPaths] growing by [push]. *)
Fixpoint collectExisting (pathValues existingPaths : list string)
  : M (list string) :=
  match pathValues with
  | [] => ret existingPaths
  | filePath :: rest =>
      if truthy filePath then
        present <- fs_pathExists filePath ;;
        if present then
          hit <- wouldOverwrite filePath ;;
          collectExisting rest
            (if hit then (existingPaths ++ [filePath])%list else existingPaths)
        else collectExisting rest existingPaths
      else collectExisting rest existingPaths
  end.

Definition pathInfo (existingPaths : list string) : string :=
  String.concat ""
    (map (fun v => "  - " ++ kleur_yellow v ++ newline) existingPaths).

Definition conflictError (existingPaths : list string) : Error :=
  {| message :=
       "Cannot initialize project, process could overwrite:" ++ newline
       ++ pathInfo existingPaths |}.

Definition checkConflicts (template : InitMode.t) : M unit :=
  fileNames <- readTemplateDir template ;;
  existingPaths <- collectExisting (paths.values ++ fileNames)%list [] ;;
  if (0 <? length existingPaths)%nat then throw (conflictError existingPaths)
  else ret tt.

(** ** Object updates on parsed documents *)

(** [target[k] = v] in strict mode.  On an object the property is written;
    on an array it is written too but is not an element, so the serialised
    document is unchanged; on [null] and on primitives it throws. *)
Definition assign (target : Json) (k : string) (v : Json) : M Json :=
  match target with
  | JObj props => ret (JObj (setProp props k v))
  | JArr items => ret (JArr items)
  | JNull =>
      throw {| message :=
                 "Cannot set properties of null (setting '" ++ k ++ "')" |}
  | JBool _ =>
      throw {| message :=
                 "Cannot create property '" ++ k ++ "' on boolean '"
                 ++ js_toString target ++ "'" |}
  | JNum _ =>
      throw {| message :=
                 "Cannot create property '" ++ k ++ "' on number '"
                 ++ js_toString target ++ "'" |}
  | JStr _ =>
      throw {| message :=
                 "Cannot create property '" ++ k ++ "' on string '"
                 ++ js_toString target ++ "'" |}
  end.

(** [target[k]] for a key that no prototype defines. *)
Definition member (target : Json) (k : string) : option Json :=
  match target with
  | JObj props => getProp props k
  | _ => None
  end.

(** [k in target] for such a key; it throws unless [target] is an object. *)
Definition js_in (k : string) (target : Json) : M bool :=
  match target with
  | JObj props => ret (negb (isUndefined (getProp props k)))
  | JArr _ => ret false
  | _ =>
      throw {| message :=
                 "Cannot use 'in' operator to search for '" ++ k ++ "' in "
                 ++ js_toString target |}
  end.

(** [v !== s] for a string literal [s]. *)
Definition notStrictlyEqual (v : option Json) (s : string) : bool :=
  match v with
  | Some (JStr s') => negb (String.eqb s' s)
  | _ => true
  end.

(** ** The pipeline (lines 258-430) *)

Definition packageFields (pkgJson : Json) (build : string) : M Json :=
  pkgJson <- assign pkgJson "name"
               (JStr (RBXTS_SCOPE ++ "/"
                      ++ js_toString_opt (member pkgJson "name"))) ;;
  pkgJson <- assign pkgJson "main" (JStr "out/init.lua") ;;
  pkgJson <- assign pkgJson "types" (JStr "out/index.d.ts") ;;
  pkgJson <- assign pkgJson "files"
               (JArr [JStr "out"; JStr "!**/*.tsbuildinfo"]) ;;
  pkgJson <- assign pkgJson "publishConfig"
               (JObj [("access", JStr "public")]) ;;
  (* pkgJson.scripts is the object stored by the caller; the key added to
     it shows in pkgJson *)
  assign pkgJson "scripts"
    (JObj [("build", JStr "rbxtsc"); ("watch", JStr "rbxtsc -w");
           ("prepublishOnly", JStr build)]).

(** The manifest as rewritten by lines 263-274. *)
Definition rewriteManifest (template : InitMode.t) (build : string)
  (pkgJson : Json) : M Json :=
  pkgJson <- assign pkgJson "scripts"
               (JObj [("build", JStr "rbxtsc"); ("watch", JStr "rbxtsc -w")]) ;;
  if InitMode.eqb template InitMode.Package then packageFields pkgJson build
  else ret pkgJson.

Definition initializePackageJson (cfg : Resolved) : M unit :=
  let selectedPackageManager := packageManagerCommands (packageManager cfg) in
  benchmark "Initializing package.json.."
    (cmd (PackageManagerCommands.init selectedPackageManager) ;;
     pkgJson <- fs_readJson (InCwd paths.packageJson) ;;
     pkgJson <- rewriteManifest (template cfg)
                  (PackageManagerCommands.build selectedPackageManager)
                  pkgJson ;;
     fs_outputFile (InCwd paths.packageJson) (JsonText pkgJson "  ")).

Definition gitHint : string :=
  "Do you not have Git installed? Git CLI is required to use Git functionality. If you do not wish to use Git, answer no to "
  ++ dquote ++ "Configure Git" ++ dquote ++ ".".

Definition initializeGit : M unit :=
  benchmark "Initializing Git.."
    (try_catch (cmd "git init" ;; ret tt)
       (fun error =>
          throw {| message := message error ++ newline ++ gitHint |}) ;;
     fs_copy configTemplate.gitignore (InCwd paths.gitignore) ;;
     fs_copy configTemplate.gitattributes (InCwd paths.gitattributes)).

Definition devDependencies (cfg : Resolved) : list string :=
  let deps :=
    ["@rbxts/types";
     "@rbxts/compiler-types@compiler-" ++ COMPILER_VERSION;
     "typescript"] in
  let deps := if prettier cfg then (deps ++ ["prettier"])%list else deps in
  if eslint cfg then
    let deps :=
      (deps ++ ["eslint"; "@typescript-eslint/parser";
                "eslint-plugin-roblox-ts"])%list in
    if prettier cfg then (deps ++ ["eslint-plugin-prettier"])%list else deps
  else deps.

Definition installDependencies (cfg : Resolved) : M unit :=
  let selectedPackageManager := packageManagerCommands (packageManager cfg) in
  benchmark "Installing dependencies.."
    (cmd (PackageManagerCommands.devInstall selectedPackageManager ++ " "
          ++ String.concat " " (devDependencies cfg)) ;;
     ret tt).

Definition setupYarn3 : M unit :=
  benchmark "Setting up yarn v3.."
    (cmd "yarn set verion latest" ;;
     fs_remove (InCwd paths.yarnncOld) ;;
     text <- fs_readFile (InCwd paths.yarnnc) ;;
     yamlData <- await (YAML_parse host text) ;;
     present <- js_in "nodeLinker" yamlData ;;
     if negb present
        || notStrictlyEqual (member yamlData "nodeLinker") "node-modules"
     then
       yamlData <- assign yamlData "nodeLinker" (JStr "node-modules") ;;
       fs_writeFile (InCwd paths.yarnnc) (YamlText yamlData)
     else ret tt).

Definition configureEslint (cfg : Resolved) : M unit :=
  benchmark "Configuring ESLint.."
    (fs_copy configTemplate.eslintrc (InCwd paths.eslintrc) ;;
     fs_copy configTemplate.eslintrcIgnore (InCwd paths.eslintrcIgnore) ;;
     if prettier cfg then
       text <- fs_readFile (InCwd paths.eslintrc) ;;
       eslintConfig <- await (YAML_parse host text) ;;
       eslintConfig <- assign eslintConfig "extends" (JStr "prettier") ;;
       fs_writeFile (InCwd paths.eslintrc) (YamlText eslintConfig)
     else ret tt).

Definition configurePrettier : M unit :=
  benchmark "Configuring prettier.."
    (fs_copy configTemplate.prettierrc (InCwd paths.prettierrc) ;;
     fs_copy configTemplate.prettierIgnore (InCwd paths.prettierIgnore)).

(** The per-language block written for a default formatter. *)
Definition formatterBlock (formatter : string) : Json :=
  JObj [("editor.defaultFormatter", JStr formatter);
        ("editor.formatOnSave", JBool true)].

Definition vscodeRecommendations (cfg : Resolved) : list string :=
  let recommendations := ["roblox-ts.vscode-roblox-ts"] in
  let recommendations :=
    if eslint cfg then (recommendations ++ ["dbaeumer.vscode-eslint"])%list
    else recommendations in
  let recommendations :=
    if prettier cfg then (recommendations ++ ["esbenp.prettier-vscode"])%list
    else recommendations in
  if PackageManager.eqb (packageManager cfg) PackageManager.Yarn3
  then (recommendations ++ ["arcanis.vscode-zipfs"])%list
  else recommendations.

Definition vscodeSettings (cfg : Resolved) : list (string * Json) :=
  let settings := [("typescript.enablePromptUseWorkspaceTsdk", JBool true)] in
  let settings :=
    if eslint cfg then
      objectAssign settings
        [("[typescript]", formatterBlock "dbaeumer.vscode-eslint");
         ("[typescriptreact]", formatterBlock "dbaeumer.vscode-eslint");
         ("eslint.run", JStr "onType");
         ("eslint.format.enable", JBool true)]
    else settings in
  if prettier cfg then
    if negb (eslint cfg) then
      objectAssign settings
        [("[typescript]", formatterBlock "esbenp.prettier-vscode");
         ("[typescriptreact]", formatterBlock "esbenp.prettier-vscode")]
    else settings
  else settings.

Definition configureVscode (cfg : Resolved) : M unit :=
  benchmark "Configuring vscode.."
    ((if PackageManager.eqb (packageManager cfg) PackageManager.Yarn3
      then cmd "yarn dlx @yarnpkg/sdks vscode" ;; ret tt
      else ret tt) ;;
     fs_outputFile (InCwd paths.extensions)
       (JsonText
          (JObj [("recommendations",
                  JArr (map JStr (vscodeRecommendations cfg)))])
          tab) ;;
     fs_outputFile (InCwd paths.settings)
       (JsonText (JObj (vscodeSettings cfg)) tab)).

Definition copyTemplate (cfg : Resolved) : M unit :=
  benchmark "Copying template files.."
    (fs_copy (templateDir (template cfg)) (InCwd "")).

Definition compile : M unit :=
  benchmark "Compiling.." (cmd "npm run build") ;; ret tt.

Definition when (b : bool) (step : M unit) : M unit :=
  if b then step else ret tt.

Definition pipeline (cfg : Resolved) : M unit :=
  initializePackageJson cfg ;;
  when (git cfg) initializeGit ;;
  installDependencies cfg ;;
  when (PackageManager.eqb (packageManager cfg) PackageManager.Yarn3)
    setupYarn3 ;;
  when (eslint cfg) (configureEslint cfg) ;;
  when (prettier cfg) configurePrettier ;;
  when (vscode cfg) (configureVscode cfg) ;;
  copyTemplate cfg ;;
  compile.

(** ** The command *)

Definition init (argv : InitOptions.t) (initMode : InitMode.t) : M unit :=
  tools <- probeTools ;;
  cfg <- resolveOptions argv initMode tools ;;
  checkConflicts (template cfg) ;;
  pipeline cfg.

End Init.

(** ** The command module (lines 441-488) *)

(** The sub-commands [builder] registers: the names each answers to and the
    mode its handler passes to [init]. *)
Definition subcommands : list (list InitMode.t * InitMode.t) :=
  [([InitMode.Game; InitMode.Place], InitMode.Game);
   ([InitMode.Model], InitMode.Model);
   ([InitMode.Plugin], InitMode.Plugin);
   ([InitMode.Package], InitMode.Package)].

(** The mode of the sub-command that answers to a name, if one does. *)
Definition subcommandMode (name : string) : option InitMode.t :=
  option_map snd
    (find (fun entry : list InitMode.t * InitMode.t =>
             existsb (fun alias => String.eqb (InitMode.value alias) name)
               (fst entry))
       subcommands).

(** The mode [init] is called with: [handler] passes [InitMode.None] when
    no sub-command is named; a named sub-command passes its own mode.  A
    name no sub-command answers to is not dispatched here. *)
Definition entryMode (sub : option string) : option InitMode.t :=
  match sub with
  | None => Some InitMode.None
  | Some name => subcommandMode name
  end.

(** ** Vocabulary of the properties *)

(** The verdict of lines 237-243 on one path whenever the test runs to its
    end: the path is pushed iff it is a non-empty string that leads, links
    followed, to a regular file or to a directory with an entry. *)
Definition detects (host : Host) (filePath : string) : bool :=
  truthy filePath
  && match resolveEntry (cwdEntry host filePath) with
     | Some RegularFile => true
     | Some (Directory entries) => (0 <? length entries)%nat
     | _ => false
     end.

(** The conflict rule in the words of the specification: a path is a
    conflict iff it exists and is a regular file, or is a symbolic link, or
    is a directory with at least one entry. *)
Definition specConflict (e : Entry) : bool :=
  match e with
  | Absent => false
  | Present RegularFile => true
  | Present (Directory entries) => (0 <? length entries)%nat
  | Present (UnreadableDirectory entries) => (0 <? length entries)%nat
  | Present Special => false
  | SymbolicLink _ => true
  end.

(** The error with which [readdir] rejects on what a path leads to, for
    the paths on which the scan reaches it: [ENOTDIR] on a special file,
    [EACCES] on a directory that may not be read. *)
Definition listingError (e : Entry) : option string :=
  match resolveEntry e with
  | Some Special => Some "ENOTDIR"
  | Some (UnreadableDirectory _) => Some "EACCES"
  | _ => None
  end.

(** A path at which there is nothing, a regular file, or a directory that
    may be read, and no symbolic link. *)
Definition plain (e : Entry) : bool :=
  match e with
  | Absent | Present RegularFile | Present (Directory _) => true
  | _ => false
  end.


(** Events that start a pipeline step, and events that change the host. *)
Definition startsStep (e : Event) : bool :=
  match e with
  | EBenchmark _ => true
  | _ => false
  end.

Definition mutates (e : Event) : bool :=
  match e with
  | ECmd _ | EOutputFile _ _ | EWriteFile _ _ | ECopy _ _ | ERemove _ => true
  | _ => false
  end.

(** Events of the pre-flight phase: no step is started, nothing changes. *)
Definition preflight (e : Event) : bool :=
  negb (startsStep e) && negb (mutates e).

Definition isPrompt (e : Event) : bool :=
  match e with
  | EPrompt _ => true
  | _ => false
  end.

(** The four toggles, with their flag, question, resolved value and the
    value used when there is neither flag nor answer. *)
Inductive Toggle : Type := ToggleGit | ToggleEslint | TogglePrettier | ToggleVscode.

Definition toggleName (tg : Toggle) : string :=
  match tg with
  | ToggleGit => "git"
  | ToggleEslint => "eslint"
  | TogglePrettier => "prettier"
  | ToggleVscode => "vscode"
  end.

Definition toggleFlag (argv : InitOptions.t) (tg : Toggle) : option bool :=
  match tg with
  | ToggleGit => InitOptions.git argv
  | ToggleEslint => InitOptions.eslint argv
  | TogglePrettier => InitOptions.prettier argv
  | ToggleVscode => InitOptions.vscode argv
  end.

Definition toggleValue (cfg : Resolved) (tg : Toggle) : bool :=
  match tg with
  | ToggleGit => git cfg
  | ToggleEslint => eslint cfg
  | TogglePrettier => prettier cfg
  | ToggleVscode => vscode cfg
  end.

Definition toggleDefault (argv : InitOptions.t) (tools : ToolAvailability)
  (tg : Toggle) : bool :=
  match tg with
  | ToggleGit =>
      nullish_or (js_and (InitOptions.yes argv) (gitAvailable tools)) false
  | _ => nullish_or (InitOptions.yes argv) false
  end.

(** The default formatter a settings document names for a language block. *)
Definition defaultFormatter (settings : list (string * Json)) (block : string)
  : option Json :=
  match getProp settings block with
  | Some (JObj props) => getProp props "editor.defaultFormatter"
  | _ => None
  end.

(** What a question contributes to the answers. *)
Definition answered {A : Type} (type : bool) (reply : Reply A) : option A :=
  if type then
    match reply with
    | Submit a => Some a
    | Abort => None
    end
  else None.

Definition asked (type : bool) (name : string) : list Event :=
  if type then [EPrompt name] else [].

(** The choice a select question yields for a submitted cursor. *)
Definition chosen {A : Type} (choices : list A) (cursor : option nat)
  : option A :=
  match cursor with
  | Some c => nth_error choices (c mod length choices)
  | None => None
  end.

(** The answers of a session that the user does not abort. *)
Definition collected (host : Host) (argv : InitOptions.t)
  (initMode : InitMode.t) (tools : ToolAvailability) : Answers :=
  {| ans_template :=
       chosen templateChoices
         (answered (askTemplate initMode) (replySelect host "template"));
     ans_git := answered (askGit argv tools) (replyConfirm host "git");
     ans_eslint := answered (askEslint argv) (replyConfirm host "eslint");
     ans_prettier :=
       answered (askPrettier argv) (replyConfirm host "prettier");
     ans_vscode := answered (askVscode argv) (replyConfirm host "vscode");
     ans_packageManager :=
       chosen (packageManagerChoices tools)
         (answered (askPackageManager argv tools)
            (replySelect host "packageManager")) |}.

(** The questions of a session that the user does not abort. *)
Definition questions (argv : InitOptions.t) (initMode : InitMode.t)
  (tools : ToolAvailability) : list Event :=
  (asked (askTemplate initMode) "template"
   ++ asked (askGit argv tools) "git"
   ++ asked (askEslint argv) "eslint"
   ++ asked (askPrettier argv) "prettier"
   ++ asked (askVscode argv) "vscode"
   ++ asked (askPackageManager argv tools) "packageManager")%list.

(** Whether a question is asked and the user aborts it. *)
Definition aborts {A : Type} (type : bool) (reply : Reply A) : bool :=
  type
  && match reply with
     | Submit _ => false
     | Abort => true
     end.

(** Whether the user aborts one of the questions of a session. *)
Definition cancelled (host : Host) (argv : InitOptions.t)
  (initMode : InitMode.t) (tools : ToolAvailability) : bool :=
  aborts (askTemplate initMode) (replySelect host "template")
  || aborts (askGit argv tools) (replyConfirm host "git")
  || aborts (askEslint argv) (replyConfirm host "eslint")
  || aborts (askPrettier argv) (replyConfirm host "prettier")
  || aborts (askVscode argv) (replyConfirm host "vscode")
  || aborts (askPackageManager argv tools) (replySelect host "packageManager").

(** The labels of the steps a trace starts, in order. *)
Definition labels (t : list Event) : list string :=
  flat_map (fun e => match e with
                     | EBenchmark label => [label]
                     | _ => []
                     end) t.

(** The steps a configuration enables, in the order of the source. *)
Definition plannedSteps (cfg : Resolved) : list string :=
  (["Initializing package.json.."]
   ++ (if git cfg then ["Initializing Git.."] else [])
   ++ ["Installing dependencies.."]
   ++ (if PackageManager.eqb (packageManager cfg) PackageManager.Yarn3
       then ["Setting up yarn v3.."] else [])
   ++ (if eslint cfg then ["Configuring ESLint.."] else [])
   ++ (if prettier cfg then ["Configuring prettier.."] else [])
   ++ (if vscode cfg then ["Configuring vscode.."] else [])
   ++ ["Copying template files.."; "Compiling.."])%list.

(** The message [cmd] throws for a failed command. *)
Definition commandFailure (error : ExecException) : Error :=
  {| message :=
       "Command " ++ dquote ++ exc_cmd error ++ dquote
       ++ " exited with code " ++ exc_code error
       ++ newline ++ newline ++ exc_message error |}.

(** Events that write, copy or remove files. *)
Definition writesFile (e : Event) : bool :=
  match e with
  | EOutputFile _ _ | EWriteFile _ _ | ECopy _ _ | ERemove _ => true
  | _ => false
  end.




(** Whether the host makes an operation fail: a command that does not exit
    with 0, a write, copy or removal it refuses, a read it rejects. *)
Definition refused (host : Host) (e : Event) : bool :=
  match e with
  | ECmd c =>
      match exec host c with
      | ExecError _ => true
      | ExecOk _ => false
      end
  | EOutputFile _ _ | EWriteFile _ _ | ECopy _ _ | ERemove _ =>
      match fsFault host e with
      | Some _ => true
      | None => false
      end
  | EReadJson p =>
      match readJson host p with
      | Rejected _ => true
      | Fulfilled _ => false
      end
  | EReadFile p =>
      match readFile host p with
      | Rejected _ => true
      | Fulfilled _ => false
      end
  | _ => false
  end.

(** A run in which a failed operation is the last thing done, and which
    then throws. *)
Definition failStop (host : Host) {A : Type} (m : M A) : Prop :=
  forall t1 e t2,
    trace m = (t1 ++ e :: t2)%list ->
    refused host e = true ->
    t2 = [] /\ exists err, outcome m = Thrown err.

(** The operations of a run, none of which the host makes fail. *)
Definition unrefused (host : Host) {A : Type} (m : M A) : Prop :=
  forall e, In e (trace m) -> refused host e = false.

(** A run that returns unless the host makes one of its operations fail. *)
Definition smooth (host : Host) {A : Type} (m : M A) : Prop :=
  unrefused host m -> exists a, outcome m = Returned a.

(** ** Sample hosts and invocations *)

Module Sample.
Definition found (tool : string) : Settled (option string) :=
  Fulfilled (Some ("/usr/bin/" ++ tool)).

Definition allTools : string -> Settled (option string) := found.

(** npm has been removed; pnpm replaces it. *)
Definition onlyPnpm (tool : string) : Settled (option string) :=
  if String.eqb tool "pnpm" then found tool
  else if String.eqb tool "git" then found tool
  else Fulfilled None.

Definition onlyNpm (tool : string) : Settled (option string) :=
  if String.eqb tool "npm" then found tool
  else if String.eqb tool "git" then found tool
  else Fulfilled None.

Definition onlyYarn (tool : string) : Settled (option string) :=
  if String.eqb tool "yarn" then found tool
  else if String.eqb tool "git" then found tool
  else Fulfilled None.

Definition noGit (tool : string) : Settled (option string) :=
  if String.eqb tool "git" then Fulfilled None else found tool.

Definition emptyCwd (p : string) : Entry := Absent.

Definition at_ (p : string) (e : Entry) (rest : string -> Entry)
  : string -> Entry :=
  fun q => if String.eqb q p then e else rest q.

Definition manifest : Json :=
  JObj [("name", JStr "my-project"); ("version", JStr "1.0.0");
        ("main", JStr "index.js");
        ("scripts", JObj [("test", JStr "exit 1")])].

(** A host on which nothing fails: every command exits with 0, every read
    succeeds, the user submits the first choice and confirms. *)
Definition mk (probe : string -> Settled (option string))
  (cwd : string -> Entry) : Host :=
  {| lookpath := probe;
     replySelect := fun _ => Submit 0%nat;
     replyConfirm := fun _ => Submit true;
     colors := false;
     templateFiles := fun _ => Fulfilled ["default.project.json"; "src"];
     cwdEntry := cwd;
     exec := fun _ => ExecOk "";
     readJson := fun _ => Fulfilled manifest;
     readFile := fun _ => Fulfilled "";
     YAML_parse := fun _ => Fulfilled (JObj []);
     fsFault := fun _ => None;
     errno := fun code _ => {| message := code |} |}.

Definition quiet : Host := mk allTools emptyCwd.

Definition noFlags : InitOptions.t :=
  {| InitOptions.yes := None; InitOptions.git := None;
     InitOptions.eslint := None; InitOptions.prettier := None;
     InitOptions.vscode := None; InitOptions.packageManager := None |}.

Definition withYes (b : bool) : InitOptions.t :=
  {| InitOptions.yes := Some b; InitOptions.git := None;
     InitOptions.eslint := None; InitOptions.prettier := None;
     InitOptions.vscode := None; InitOptions.packageManager := None |}.

Definition withEslint (b : bool) : InitOptions.t :=
  {| InitOptions.yes := None; InitOptions.git := None;
     InitOptions.eslint := Some b; InitOptions.prettier := None;
     InitOptions.vscode := None; InitOptions.packageManager := None |}.

Definition withPackageManager (m : PackageManager.t) : InitOptions.t :=
  {| InitOptions.yes := None; InitOptions.git := None;
     InitOptions.eslint := None; InitOptions.prettier := None;
     InitOptions.vscode := None; InitOptions.packageManager := Some m |}.

Definition config (mode : InitMode.t) (g e p v : bool)
  (m : PackageManager.t) : Resolved :=
  {| template := mode; git := g; eslint := e; prettier := p; vscode := v;
     packageManager := m |}.
(** Variations of a host. *)
Definition withExec (h : Host) (f : string -> ExecResult) : Host :=
  {| lookpath := lookpath h; replySelect := replySelect h;
     replyConfirm := replyConfirm h; colors := colors h;
     templateFiles := templateFiles h; cwdEntry := cwdEntry h;
     exec := f; readJson := readJson h; readFile := readFile h;
     YAML_parse := YAML_parse h; fsFault := fsFault h; errno := errno h |}.

Definition withConfirm (h : Host) (f : string -> Reply bool) : Host :=
  {| lookpath := lookpath h; replySelect := replySelect h;
     replyConfirm := f; colors := colors h;
     templateFiles := templateFiles h; cwdEntry := cwdEntry h;
     exec := exec h; readJson := readJson h; readFile := readFile h;
     YAML_parse := YAML_parse h; fsFault := fsFault h; errno := errno h |}.

Definition withSelect (h : Host) (f : string -> Reply nat) : Host :=
  {| lookpath := lookpath h; replySelect := f;
     replyConfirm := replyConfirm h; colors := colors h;
     templateFiles := templateFiles h; cwdEntry := cwdEntry h;
     exec := exec h; readJson := readJson h; readFile := readFile h;
     YAML_parse := YAML_parse h; fsFault := fsFault h; errno := errno h |}.

Definition withYaml (h : Host) (doc : Json) : Host :=
  {| lookpath := lookpath h; replySelect := replySelect h;
     replyConfirm := replyConfirm h; colors := colors h;
     templateFiles := templateFiles h; cwdEntry := cwdEntry h;
     exec := exec h; readJson := readJson h; readFile := readFile h;
     YAML_parse := fun _ => Fulfilled doc; fsFault := fsFault h;
     errno := errno h |}.

Definition withManifest (h : Host) (r : Settled Json) : Host :=
  {| lookpath := lookpath h; replySelect := replySelect h;
     replyConfirm := replyConfirm h; colors := colors h;
     templateFiles := templateFiles h; cwdEntry := cwdEntry h;
     exec := exec h; readJson := fun _ => r; readFile := readFile h;
     YAML_parse := YAML_parse h; fsFault := fsFault h; errno := errno h |}.

(** A host like [quiet] whose configuration files hold one YAML mapping;
    the parser yields [null] for any other text, as it does for an empty
    one. *)
Definition parseSample (text : string) : Settled Json :=
  if String.eqb text "root: true"
  then Fulfilled (JObj [("root", JBool true)])
  else Fulfilled JNull.

Definition lintable : Host :=
  {| lookpath := lookpath quiet; replySelect := replySelect quiet;
     replyConfirm := replyConfirm quiet; colors := colors quiet;
     templateFiles := templateFiles quiet; cwdEntry := cwdEntry quiet;
     exec := exec quiet; readJson := readJson quiet;
     readFile := fun _ => Fulfilled "root: true";
     YAML_parse := parseSample; fsFault := fsFault quiet;
     errno := errno quiet |}.

(** [exec] failing with exit code 1 on one command. *)
Definition failingOn (cmdStr : string) (c : string) : ExecResult :=
  if String.eqb c cmdStr then
    ExecError {| exc_cmd := c; exc_code := "1";
                 exc_message := "Command failed: " ++ c |}
  else ExecOk "".

(** The user aborting one confirm question. *)
Definition abortingAt (name : string) (q : string) : Reply bool :=
  if String.eqb q name then Abort else Submit true.

End Sample.

(** * Properties *)

(** ** Runs *)

Section Runs.
Context {A B : Type}.
Implicit Types (m : M A) (f : A -> M B).

Lemma bind_outcome_Returned m f b :
  outcome (bind m f) = Returned b ->
  exists a, outcome m = Returned a /\ outcome (f a) = Returned b.
Proof.
  destruct m as [t [a | e | c]]; simpl; try discriminate.
  destruct (f a) as [t' r] eqn:Hf; simpl.
  intros ->. exists a. rewrite Hf. split; reflexivity.
Qed.

Lemma bind_Returned m f a :
  outcome m = Returned a ->
  trace (bind m f) = (trace m ++ trace (f a))%list
  /\ outcome (bind m f) = outcome (f a).
Proof.
  destruct m as [t r]; simpl. intros ->. simpl.
  destruct (f a) as [t' r']; simpl. split; reflexivity.
Qed.

Lemma bind_Thrown m f e :
  outcome m = Thrown e ->
  trace (bind m f) = trace m /\ outcome (bind m f) = Thrown e.
Proof. destruct m as [t r]; simpl. intros ->. split; reflexivity. Qed.

Lemma bind_Exited m f c :
  outcome m = Exited c ->
  trace (bind m f) = trace m /\ outcome (bind m f) = Exited c.
Proof. destruct m as [t r]; simpl. intros ->. split; reflexivity. Qed.

Lemma bind_trace_In m f ev :
  In ev (trace (bind m f)) ->
  In ev (trace m)
  \/ exists a, outcome m = Returned a /\ In ev (trace (f a)).
Proof.
  destruct m as [t [a | e | c]]; simpl; auto.
  destruct (f a) as [t' r] eqn:Hf; simpl.
  intros H. apply in_app_or in H. destruct H as [H | H]; auto.
  right. exists a. rewrite Hf. auto.
Qed.

Lemma bind_trace_Forall (P : Event -> Prop) m f :
  Forall P (trace m) ->
  (forall a, outcome m = Returned a -> Forall P (trace (f a))) ->
  Forall P (trace (bind m f)).
Proof.
  destruct m as [t [a | e | c]]; simpl; auto.
  intros Ht Hf. specialize (Hf a eq_refl).
  destruct (f a) as [t' r]; simpl in *.
  apply Forall_app. auto.
Qed.
End Runs.

Lemma try_catch_trace_Forall {A : Type} (P : Event -> Prop) (m : M A) h :
  Forall P (trace m) ->
  (forall e, Forall P (trace (h e))) ->
  Forall P (trace (try_catch m h)).
Proof.
  destruct m as [t [a | e | c]]; simpl; auto.
  intros Ht Hh. specialize (Hh e). destruct (h e) as [t' r]; simpl in *.
  apply Forall_app. auto.
Qed.

(** ** Prompting *)

Lemma ask_trace {A : Type} type name (reply : Reply A) :
  trace (ask type name reply) = asked type name.
Proof. destruct type, reply; reflexivity. Qed.

Lemma ask_Returned {A : Type} type name (reply : Reply A) r :
  outcome (ask type name reply) = Returned r ->
  r = answered type reply /\ (type = true -> exists a, reply = Submit a).
Proof.
  destruct type, reply; simpl; try discriminate;
    intros [= <-]; split; try reflexivity; try discriminate; eauto.
Qed.

Lemma select_trace host {A : Type} type name (choices : list A) :
  trace (select host type name choices) = asked type name.
Proof.
  unfold select. destruct type; simpl; [|reflexivity].
  destruct (replySelect host name); reflexivity.
Qed.

Lemma select_Returned host {A : Type} type name (choices : list A) r :
  outcome (select host type name choices) = Returned r ->
  r = chosen choices (answered type (replySelect host name))
  /\ (type = true -> exists c, replySelect host name = Submit c).
Proof.
  unfold select. destruct type; simpl.
  - destruct (replySelect host name); simpl; try discriminate.
    intros [= <-]. split; eauto.
  - intros [= <-]. split; [reflexivity | discriminate].
Qed.

Ltac split_bind H :=
  let a := fresh "a" in
  let Ha := fresh "Ha" in
  apply bind_outcome_Returned in H; destruct H as (a & Ha & H).

Lemma prompts_Returned host argv initMode tools answers :
  outcome (prompts host argv initMode tools) = Returned answers ->
  answers = collected host argv initMode tools
  /\ trace (prompts host argv initMode tools) = questions argv initMode tools
  /\ (askGit argv tools = true ->
      exists a, replyConfirm host "git" = Submit a)
  /\ (askEslint argv = true ->
      exists a, replyConfirm host "eslint" = Submit a)
  /\ (askPrettier argv = true ->
      exists a, replyConfirm host "prettier" = Submit a)
  /\ (askVscode argv = true ->
      exists a, replyConfirm host "vscode" = Submit a)
  /\ (askPackageManager argv tools = true ->
      exists c, replySelect host "packageManager" = Submit c).
Proof.
  intros H. unfold prompts in *.
  pose proof H as H0.
  split_bind H. rename a into t, Ha into Ht.
  split_bind H. rename a into g, Ha into Hg.
  split_bind H. rename a into e, Ha into He.
  split_bind H. rename a into p, Ha into Hp.
  split_bind H. rename a into v, Ha into Hv.
  split_bind H. rename a into m, Ha into Hm.
  simpl in H. injection H as <-.
  repeat match goal with
         | |- context [trace (bind ?x ?f)] =>
             match goal with
             | Hx : outcome x = Returned ?a |- _ =>
                 rewrite (proj1 (bind_Returned x f a Hx))
             end
         end.
  unfold confirm in *.
  rewrite !select_trace, !ask_trace.
  apply select_Returned in Ht, Hm.
  apply ask_Returned in Hg, He, Hp, Hv.
  destruct Ht as [-> _], Hm as [-> Hm], Hg as [-> Hg], He as [-> He],
    Hp as [-> Hp], Hv as [-> Hv].
  unfold collected, questions. simpl. rewrite app_nil_r.
  repeat split; assumption.
Qed.

Lemma prompts_trace_In host argv initMode tools ev :
  In ev (trace (prompts host argv initMode tools)) ->
  In ev (questions argv initMode tools).
Proof.
  unfold prompts, confirm, questions. intros H.
  repeat (apply bind_trace_In in H;
          destruct H as [H | (? & _ & H)];
          [rewrite ?select_trace, ?ask_trace in H;
           rewrite !in_app_iff; tauto |]).
  destruct H.
Qed.

Lemma resolveOptions_trace_In host argv initMode tools ev :
  In ev (trace (resolveOptions host argv initMode tools)) ->
  In ev (questions argv initMode tools).
Proof.
  unfold resolveOptions. intros H.
  apply bind_trace_In in H. destruct H as [H | (? & _ & H)].
  - now apply prompts_trace_In in H.
  - destruct H.
Qed.

Lemma asked_In type name ev :
  In ev (asked type name) <-> ev = EPrompt name /\ type = true.
Proof.
  destruct type; simpl; split; intros H.
  - destruct H as [<- | []]. auto.
  - left. symmetry. apply H.
  - destruct H.
  - destruct H as [_ H]. discriminate.
Qed.

(** Which questions a session asks: exactly those whose [type] holds. *)
Lemma questions_In argv initMode tools name :
  In (EPrompt name) (questions argv initMode tools) <->
  (name = "template" /\ askTemplate initMode = true)
  \/ (name = "git" /\ askGit argv tools = true)
  \/ (name = "eslint" /\ askEslint argv = true)
  \/ (name = "prettier" /\ askPrettier argv = true)
  \/ (name = "vscode" /\ askVscode argv = true)
  \/ (name = "packageManager" /\ askPackageManager argv tools = true).
Proof.
  unfold questions. rewrite !in_app_iff, !asked_In.
  split; intros H;
    repeat match type of H with
           | _ \/ _ => destruct H as [H | H]
           end;
    destruct H as [H1 H2];
    first [ injection H1 as -> | subst name ]; tauto.
Qed.

Lemma resolveOptions_Returned host argv initMode tools cfg :
  outcome (resolveOptions host argv initMode tools) = Returned cfg ->
  cfg = destructure argv initMode tools (collected host argv initMode tools)
  /\ trace (resolveOptions host argv initMode tools)
     = questions argv initMode tools
  /\ (forall tg, In (EPrompt (toggleName tg)) (questions argv initMode tools) ->
      exists a, replyConfirm host (toggleName tg) = Submit a)
  /\ (askPackageManager argv tools = true ->
      exists c, replySelect host "packageManager" = Submit c).
Proof.
  unfold resolveOptions. intros H. pose proof H as H0.
  split_bind H. simpl in H. injection H as <-.
  rewrite (proj1 (bind_Returned _ _ _ Ha)). simpl. rewrite app_nil_r.
  apply prompts_Returned in Ha.
  destruct Ha as (-> & -> & Hg & He & Hp & Hv & Hm).
  repeat split; try assumption.
  intros tg Hin. apply questions_In in Hin.
  destruct tg; simpl in *;
    repeat match type of Hin with
           | _ \/ _ => destruct Hin as [Hin | Hin]
           end;
    destruct Hin as [Hn Hb]; try discriminate Hn; auto.
Qed.

Lemma toggle_asked argv initMode tools tg :
  In (EPrompt (toggleName tg)) (questions argv initMode tools) <->
  toggleFlag argv tg = None /\ InitOptions.yes argv = None
  /\ (tg = ToggleGit -> gitAvailable tools = true).
Proof.
  rewrite questions_In.
  unfold askGit, askEslint, askPrettier, askVscode.
  destruct tg; simpl; split; intros H.
  all: repeat match type of H with
              | _ \/ _ => destruct H as [H | H]
              end.
  all: try (destruct H as [Hn _]; discriminate Hn).
  all: try (destruct H as [_ H];
            destruct (InitOptions.git argv), (InitOptions.eslint argv),
              (InitOptions.prettier argv), (InitOptions.vscode argv),
              (InitOptions.yes argv), (gitAvailable tools);
            simpl in H; try discriminate H;
            repeat split; try reflexivity; intros; discriminate).
  all: destruct H as (-> & -> & Hg); simpl.
  - right; left. rewrite Hg by reflexivity. auto.
  - right; right; left. auto.
  - right; right; right; left. auto.
  - right; right; right; right; left. auto.
Qed.

Lemma toggle_resolved host argv initMode tools tg :
  toggleValue
    (destructure argv initMode tools (collected host argv initMode tools)) tg
  = match toggleFlag argv tg with
    | Some b => b
    | None =>
        match InitOptions.yes argv with
        | Some _ => toggleDefault argv tools tg
        | None =>
            match tg, gitAvailable tools with
            | ToggleGit, false => toggleDefault argv tools tg
            | _, _ =>
                nullish_or
                  (answered true (replyConfirm host (toggleName tg)))
                  (toggleDefault argv tools tg)
            end
        end
    end.
Proof.
  unfold destructure, collected, toggleDefault, defaultGit, defaultEslint,
    defaultPrettier, defaultVscode, askGit, askEslint, askPrettier, askVscode.
  destruct tg; simpl;
    destruct (InitOptions.git argv), (InitOptions.eslint argv),
      (InitOptions.prettier argv), (InitOptions.vscode argv),
      (InitOptions.yes argv) as [[|]|], (gitAvailable tools);
    reflexivity.
Qed.

Lemma probeTools_run host :
  probeTools host
  = ([ELookpath "npm"; ELookpath "pnpm"; ELookpath "yarn"; ELookpath "git"],
     Returned (toolAvailability host)).
Proof. reflexivity. Qed.

(** ** Where questions can come from

    Only the prompting phase asks: the probes, the conflict scan and the
    pipeline never put a question to the user, whatever the host does. *)

Ltac silent_step :=
  match goal with
  | |- Forall _ (trace (bind _ _)) => apply bind_trace_Forall; [| intros ? _]
  | |- Forall _ (trace (try_catch _ _)) =>
      apply try_catch_trace_Forall; [| intros ?]
  | |- Forall _ (trace (if ?b then _ else _)) => destruct b
  | |- Forall _ (trace (match ?x with _ => _ end)) => destruct x
  | |- Forall _ (trace (emit _)) => constructor; [reflexivity | constructor]
  | |- Forall _ (trace (ret _)) => constructor
  | |- Forall _ (trace (throw _)) => constructor
  | |- Forall _ (trace (await ?s)) => destruct s; constructor
  | |- Forall _ (trace (assign ?t _ _)) => destruct t; constructor
  | |- Forall _ (trace (js_in _ ?t)) => destruct t; constructor
  end.

Lemma collectExisting_silent host pathValues :
  forall acc,
    Forall (fun e => isPrompt e = false)
      (trace (collectExisting host pathValues acc)).
Proof.
  induction pathValues as [| p rest IH]; intros acc; cbn [collectExisting].
  - constructor.
  - unfold fs_pathExists, wouldOverwrite, fs_stat, fs_readdir.
    repeat first [ apply IH | silent_step ].
Qed.

Lemma checkConflicts_silent host template :
  Forall (fun e => isPrompt e = false) (trace (checkConflicts host template)).
Proof.
  unfold checkConflicts, readTemplateDir.
  repeat first [ apply collectExisting_silent | silent_step ].
Qed.

Lemma pipeline_silent host cfg :
  Forall (fun e => isPrompt e = false) (trace (pipeline host cfg)).
Proof.
  unfold pipeline, when, initializePackageJson, initializeGit,
    installDependencies, setupYarn3, configureEslint, configurePrettier,
    configureVscode, copyTemplate, compile, benchmark, cmd, fs_readJson,
    fs_readFile, fs_copy, fs_outputFile, fs_writeFile, fs_remove, guarded,
    rewriteManifest, packageFields.
  repeat silent_step.
Qed.

(** Every question of a whole run is one of the prompting phase. *)
Lemma init_prompt_In host argv initMode name :
  In (EPrompt name) (trace (init host argv initMode)) ->
  In (EPrompt name) (questions argv initMode (toolAvailability host)).
Proof.
  unfold init. rewrite probeTools_run. intros H.
  apply bind_trace_In in H. destruct H as [H | (tools & Htools & H)].
  - simpl in H.
    repeat match type of H with
           | _ \/ _ => destruct H as [H | H]
           end; try discriminate H; contradiction.
  - injection Htools as <-.
    apply bind_trace_In in H. destruct H as [H | (cfg & _ & H)].
    + exact (resolveOptions_trace_In host _ _ _ _ H).
    + apply bind_trace_In in H. destruct H as [H | (? & _ & H)].
      * pose proof (checkConflicts_silent host (template cfg)) as Hs.
        rewrite Forall_forall in Hs. apply Hs in H. discriminate H.
      * pose proof (pipeline_silent host cfg) as Hs.
        rewrite Forall_forall in Hs. apply Hs in H. discriminate H.
Qed.

(** ** Option resolution *)

(** C6: for each of the four toggles, an explicit flag decides the value and
    suppresses the question, in the prompting phase and in the whole run;
    without a flag the submitted answer decides when the question is asked,
    and the default (derived from the recommended-defaults flag, and for
    version control from the availability of git) decides otherwise. *)
Theorem toggle_precedence host argv initMode tools tg :
  (forall b, toggleFlag argv tg = Some b ->
     ~ In (EPrompt (toggleName tg))
         (trace (resolveOptions host argv initMode tools)))
  /\ (forall cfg,
        outcome (resolveOptions host argv initMode tools) = Returned cfg ->
        match toggleFlag argv tg with
        | Some b => toggleValue cfg tg = b
        | None =>
            (In (EPrompt (toggleName tg))
               (trace (resolveOptions host argv initMode tools)) ->
             replyConfirm host (toggleName tg) = Submit (toggleValue cfg tg))
            /\ (~ In (EPrompt (toggleName tg))
                    (trace (resolveOptions host argv initMode tools)) ->
                toggleValue cfg tg = toggleDefault argv tools tg)
        end)
  /\ (forall b, toggleFlag argv tg = Some b ->
      ~ In (EPrompt (toggleName tg)) (trace (init host argv initMode))).
Proof.
  split; [| split].
  - intros b Hf Hin.
    apply resolveOptions_trace_In, toggle_asked in Hin.
    destruct Hin as [Hnone _]. congruence.
  - intros cfg Hret.
    apply resolveOptions_Returned in Hret.
    destruct Hret as (-> & -> & Hsub & _).
    rewrite toggle_resolved.
    destruct (toggleFlag argv tg) eqn:Hf; [reflexivity |].
    split.
    + intros Hin. destruct (Hsub tg Hin) as [a Ha].
      apply toggle_asked in Hin. destruct Hin as (_ & Hy & Hg).
      rewrite Hy, Ha. simpl.
      destruct tg; try reflexivity.
      rewrite Hg by reflexivity. reflexivity.
    + intros Hn. rewrite toggle_asked in Hn.
      destruct (InitOptions.yes argv) eqn:Hy; [reflexivity |].
      destruct tg;
        try (exfalso; apply Hn; repeat split;
             solve [assumption | discriminate]).
      destruct (gitAvailable tools) eqn:Hg; [| reflexivity].
      exfalso. apply Hn. repeat split. assumption.
  - intros b Hf Hin.
    apply init_prompt_In, toggle_asked in Hin.
    destruct Hin as [Hnone _]. congruence.
Qed.

Lemma toggle_precedence_witness :
  toggleFlag (Sample.withEslint false) ToggleEslint = Some false
  /\ ~ In (EPrompt "eslint")
        (trace (resolveOptions Sample.quiet (Sample.withEslint false)
                  InitMode.Game (toolAvailability Sample.quiet)))
  /\ outcome (resolveOptions Sample.quiet (Sample.withEslint false)
                InitMode.Game (toolAvailability Sample.quiet))
     = Returned
         (Sample.config InitMode.Game true false true true PackageManager.NPM)
  /\ toggleValue
       (Sample.config InitMode.Game true false true true PackageManager.NPM)
       ToggleEslint
     = false.
Proof.
  destruct (toggle_precedence Sample.quiet (Sample.withEslint false)
              InitMode.Game (toolAvailability Sample.quiet) ToggleEslint)
    as (Hquiet & Hvalue & _).
  split; [reflexivity |].
  split; [apply (Hquiet false); reflexivity |].
  split; [reflexivity |].
  apply (Hvalue
           (Sample.config InitMode.Game true false true true
              PackageManager.NPM)).
  reflexivity.
Defined.

(** C7: with the recommended-defaults flag set to true no toggle is asked
    about, in the prompting phase or anywhere in the run, and a toggle
    without its own flag resolves to true, except version control, which
    resolves to the availability of git. *)
Theorem recommended_defaults host argv initMode tools :
  InitOptions.yes argv = Some true ->
  (forall tg,
     ~ In (EPrompt (toggleName tg))
         (trace (resolveOptions host argv initMode tools)))
  /\ (forall cfg tg,
        outcome (resolveOptions host argv initMode tools) = Returned cfg ->
        toggleFlag argv tg = None ->
        toggleValue cfg tg
        = match tg with
          | ToggleGit => gitAvailable tools
          | _ => true
          end)
  /\ (forall tg,
      ~ In (EPrompt (toggleName tg)) (trace (init host argv initMode))).
Proof.
  intros Hy. split; [| split].
  - intros tg Hin.
    apply resolveOptions_trace_In, toggle_asked in Hin.
    destruct Hin as (_ & Hnone & _). congruence.
  - intros cfg tg Hret Hf.
    apply resolveOptions_Returned in Hret. destruct Hret as (-> & _).
    rewrite toggle_resolved, Hf, Hy.
    unfold toggleDefault. rewrite Hy.
    destruct tg; reflexivity.
  - intros tg Hin.
    apply init_prompt_In, toggle_asked in Hin.
    destruct Hin as (_ & Hnone & _). congruence.
Qed.

Lemma recommended_defaults_witness :
  InitOptions.yes (Sample.withYes true) = Some true
  /\ outcome (resolveOptions (Sample.mk Sample.noGit Sample.emptyCwd)
                (Sample.withYes true) InitMode.Model
                (toolAvailability (Sample.mk Sample.noGit Sample.emptyCwd)))
     = Returned
         (Sample.config InitMode.Model false true true true PackageManager.NPM)
  /\ toggleValue
       (Sample.config InitMode.Model false true true true PackageManager.NPM)
       ToggleGit
     = gitAvailable (toolAvailability (Sample.mk Sample.noGit Sample.emptyCwd))
  /\ toggleValue
       (Sample.config InitMode.Model false true true true PackageManager.NPM)
       ToggleEslint
     = true.
Proof.
  destruct (recommended_defaults (Sample.mk Sample.noGit Sample.emptyCwd)
              (Sample.withYes true) InitMode.Model
              (toolAvailability (Sample.mk Sample.noGit Sample.emptyCwd))
              eq_refl) as (_ & Hvalue & _).
  split; [reflexivity |].
  split; [reflexivity |].
  split.
  - apply (Hvalue _ ToggleGit); reflexivity.
  - apply (Hvalue _ ToggleEslint); reflexivity.
Defined.

(** C10: with the recommended-defaults flag present but false, neither a
    toggle nor the package manager is asked about (the only question a run
    can ask is the template), and a toggle without its own flag resolves to
    false. *)
Theorem declined_defaults host argv initMode tools :
  InitOptions.yes argv = Some false ->
  (forall tg,
     ~ In (EPrompt (toggleName tg))
         (trace (resolveOptions host argv initMode tools)))
  /\ ~ In (EPrompt "packageManager")
         (trace (resolveOptions host argv initMode tools))
  /\ (forall cfg tg,
        outcome (resolveOptions host argv initMode tools) = Returned cfg ->
        toggleFlag argv tg = None ->
        toggleValue cfg tg = false)
  /\ (forall name,
      In (EPrompt name) (trace (init host argv initMode)) ->
      name = "template").
Proof.
  intros Hy.
  assert (Hquestions :
            forall detected name,
              In (EPrompt name) (questions argv initMode detected) ->
              name = "template").
  { intros detected name Hin. apply questions_In in Hin.
    unfold askGit, askEslint, askPrettier, askVscode, askPackageManager in Hin.
    rewrite Hy in Hin. simpl isUndefined in Hin.
    rewrite !andb_false_r in Hin.
    repeat match type of Hin with
           | _ \/ _ => destruct Hin as [Hin | Hin]
           end;
      destruct Hin as [Hn Hb]; try discriminate Hb.
    exact Hn. }
  split; [| split; [| split]].
  - intros tg Hin.
    apply resolveOptions_trace_In, Hquestions in Hin.
    destruct tg; discriminate Hin.
  - intros Hin.
    apply resolveOptions_trace_In, Hquestions in Hin. discriminate Hin.
  - intros cfg tg Hret Hf.
    apply resolveOptions_Returned in Hret. destruct Hret as (-> & _).
    rewrite toggle_resolved, Hf, Hy.
    unfold toggleDefault. rewrite Hy.
    destruct tg; reflexivity.
  - intros name Hin. apply init_prompt_In, Hquestions in Hin. exact Hin.
Qed.

Lemma declined_defaults_witness :
  InitOptions.yes (Sample.withYes false) = Some false
  /\ ~ In (EPrompt "packageManager")
        (trace (resolveOptions Sample.quiet (Sample.withYes false)
                  InitMode.Game (toolAvailability Sample.quiet)))
  /\ outcome (resolveOptions Sample.quiet (Sample.withYes false)
                InitMode.Game (toolAvailability Sample.quiet))
     = Returned
         (Sample.config InitMode.Game false false false false
            PackageManager.NPM)
  /\ toggleValue
       (Sample.config InitMode.Game false false false false
          PackageManager.NPM)
       TogglePrettier
     = false.
Proof.
  destruct (declined_defaults Sample.quiet (Sample.withYes false)
              InitMode.Game (toolAvailability Sample.quiet) eq_refl)
    as (_ & Hpm & Hvalue & _).
  split; [reflexivity |].
  split; [exact Hpm |].
  split; [reflexivity |].
  apply (Hvalue _ TogglePrettier); reflexivity.
Defined.

(** ** Package-manager selection *)

Lemma chosen_In {A : Type} (choices : list A) c x :
  chosen choices (Some c) = Some x -> In x choices.
Proof. simpl. apply nth_error_In. Qed.

Lemma chosen_Some {A : Type} (choices : list A) c :
  choices <> [] -> exists x, chosen choices (Some c) = Some x.
Proof.
  intros Hne. simpl.
  destruct (nth_error choices (c mod length choices)) eqn:Hnth; eauto.
  apply nth_error_None in Hnth.
  assert (Hlen : length choices <> 0%nat)
    by (destruct choices; [congruence | discriminate]).
  pose proof (Nat.mod_upper_bound c (length choices) Hlen). lia.
Qed.

Lemma packageManagerChoices_nonempty tools :
  (1 <? packageManagerCount tools)%nat = true ->
  packageManagerChoices tools <> [].
Proof.
  unfold packageManagerCount, packageManagerChoices, PackageManager.members.
  simpl.
  destruct (npmAvailable tools), (pnpmAvailable tools), (yarnAvailable tools);
    simpl; intros H; discriminate.
Qed.

(** C1, as the code has it: an explicit package-manager flag is taken as it
    is; without a flag, the manager chosen is available whenever the choice
    comes from the question, or npm is available. *)
Theorem package_manager_choice host argv initMode tools cfg :
  outcome (resolveOptions host argv initMode tools) = Returned cfg ->
  (forall m, InitOptions.packageManager argv = Some m -> packageManager cfg = m)
  /\ (InitOptions.packageManager argv = None ->
      npmAvailable tools = true
      \/ In (EPrompt "packageManager")
           (trace (resolveOptions host argv initMode tools)) ->
      packageManagerExistance tools (packageManager cfg) = true).
Proof.
  intros Hret. apply resolveOptions_Returned in Hret.
  destruct Hret as (-> & -> & _ & Hsub).
  unfold destructure, collected, defaultPackageManager. simpl.
  split.
  - intros m Hm. unfold askPackageManager. rewrite Hm. reflexivity.
  - intros Hnone Hor. rewrite Hnone. simpl.
    destruct (askPackageManager argv tools) eqn:Hask.
    + destruct (Hsub eq_refl) as [c ->].
      unfold askPackageManager in Hask.
      apply andb_true_iff in Hask. destruct Hask as [Hask _].
      apply andb_true_iff in Hask. destruct Hask as [_ Hcount].
      destruct (chosen_Some (packageManagerChoices tools) c
                  (packageManagerChoices_nonempty tools Hcount)) as [m Hm].
      unfold answered. rewrite Hm. simpl.
      apply chosen_In in Hm. unfold packageManagerChoices in Hm.
      apply filter_In in Hm. apply Hm.
    + simpl. destruct Hor as [Hnpm | Hin]; [exact Hnpm |].
      apply questions_In in Hin.
      repeat match type of Hin with
             | _ \/ _ => destruct Hin as [Hin | Hin]
             end;
        destruct Hin as [Hn Hb]; try discriminate Hn.
      congruence.
Qed.

Lemma package_manager_choice_witness :
  outcome (resolveOptions Sample.quiet Sample.noFlags InitMode.Game
             (toolAvailability Sample.quiet))
  = Returned (Sample.config InitMode.Game true true true true PackageManager.NPM)
  /\ InitOptions.packageManager Sample.noFlags = None
  /\ In (EPrompt "packageManager")
       (trace (resolveOptions Sample.quiet Sample.noFlags InitMode.Game
                 (toolAvailability Sample.quiet)))
  /\ packageManagerExistance (toolAvailability Sample.quiet)
       (packageManager
          (Sample.config InitMode.Game true true true true PackageManager.NPM))
     = true.
Proof.
  split; [reflexivity |].
  split; [reflexivity |].
  split; [vm_compute; tauto |].
  apply (proj2 (package_manager_choice Sample.quiet Sample.noFlags
                  InitMode.Game (toolAvailability Sample.quiet) _ eq_refl)).
  - reflexivity.
  - right. vm_compute. tauto.
Defined.

(** C1 as stated fails: with [--packageManager pnpm] on a host without pnpm
    the run reaches the pipeline and runs pnpm's commands. *)
Lemma package_manager_flag_unchecked :
  outcome (resolveOptions (Sample.mk Sample.onlyNpm Sample.emptyCwd)
             (Sample.withPackageManager PackageManager.PNPM) InitMode.Game
             (toolAvailability (Sample.mk Sample.onlyNpm Sample.emptyCwd)))
  = Returned (Sample.config InitMode.Game true true true true PackageManager.PNPM)
  /\ In (ECmd "pnpm init")
       (trace (init (Sample.mk Sample.onlyNpm Sample.emptyCwd)
                 (Sample.withPackageManager PackageManager.PNPM)
                 InitMode.Game))
  /\ packageManagerExistance
       (toolAvailability (Sample.mk Sample.onlyNpm Sample.emptyCwd))
       PackageManager.PNPM
     = false.
Proof.
  split; [reflexivity |].
  split; [vm_compute; tauto | reflexivity].
Qed.

(** C2 on a host where pnpm is the only package manager: one manager is
    counted, no question is asked, and npm is selected although it is
    absent. *)
Theorem sole_manager_not_selected :
  packageManagerCount
    (toolAvailability (Sample.mk Sample.onlyPnpm Sample.emptyCwd)) = 1%nat
  /\ packageManagerChoices
       (toolAvailability (Sample.mk Sample.onlyPnpm Sample.emptyCwd))
     = [PackageManager.PNPM]
  /\ ~ In (EPrompt "packageManager")
         (trace (resolveOptions (Sample.mk Sample.onlyPnpm Sample.emptyCwd)
                   Sample.noFlags InitMode.Game
                   (toolAvailability
                      (Sample.mk Sample.onlyPnpm Sample.emptyCwd))))
  /\ outcome (resolveOptions (Sample.mk Sample.onlyPnpm Sample.emptyCwd)
                Sample.noFlags InitMode.Game
                (toolAvailability (Sample.mk Sample.onlyPnpm Sample.emptyCwd)))
     = Returned
         (Sample.config InitMode.Game true true true true PackageManager.NPM)
  /\ In (ECmd "npm init -y")
       (trace (init (Sample.mk Sample.onlyPnpm Sample.emptyCwd)
                 Sample.noFlags InitMode.Game)).
Proof.
  split; [reflexivity |].
  split; [reflexivity |].
  split.
  - vm_compute. intros H.
    repeat match type of H with
           | _ \/ _ => destruct H as [H | H]
           end; try discriminate H; exact H.
  - split; [reflexivity |]. vm_compute. tauto.
Qed.

(** With yarn as the only tool, two registry entries (Yarn and Yarn3) are
    counted and the question is asked. *)
Lemma yarn_counts_twice :
  packageManagerCount
    (toolAvailability (Sample.mk Sample.onlyYarn Sample.emptyCwd)) = 2%nat
  /\ In (EPrompt "packageManager")
       (trace (resolveOptions (Sample.mk Sample.onlyYarn Sample.emptyCwd)
                 Sample.noFlags InitMode.Game
                 (toolAvailability
                    (Sample.mk Sample.onlyYarn Sample.emptyCwd)))).
Proof. split; [reflexivity | vm_compute; tauto]. Qed.

(** ** Conflict detection *)

Lemma collectExisting_step host p rest acc :
  listingError (cwdEntry host p) = None ->
  exists t,
    Forall (fun e => preflight e = true) t
    /\ (truthy p = true -> In (EPathExists (InCwd p)) t)
    /\ trace (collectExisting host (p :: rest) acc)
       = (t ++ trace (collectExisting host rest
                        (if detects host p then (acc ++ [p])%list else acc)))%list
    /\ outcome (collectExisting host (p :: rest) acc)
       = outcome (collectExisting host rest
                    (if detects host p then (acc ++ [p])%list else acc)).
Proof.
  unfold listingError, detects. simpl.
  unfold fs_pathExists, wouldOverwrite, fs_stat, fs_readdir.
  destruct (truthy p); simpl.
  - destruct (resolveEntry (cwdEntry host p)) as [[| entries | entries |] |];
      simpl; intros Hs; try discriminate Hs.
    + destruct (collectExisting host rest (acc ++ [p])) as [t' r]; simpl.
      exists [EPathExists (InCwd p); EStat (InCwd p)].
      repeat split; simpl; auto.
    + destruct (collectExisting host rest _) as [t' r]; simpl.
      exists [EPathExists (InCwd p); EStat (InCwd p); EReaddir (InCwd p)].
      repeat split; simpl; auto.
    + destruct (collectExisting host rest acc) as [t' r]; simpl.
      exists [EPathExists (InCwd p)].
      repeat split; simpl; auto.
  - intros _. exists []. repeat split; auto. discriminate.
Qed.

Lemma collectExisting_run host pathValues :
  forall acc,
    (forall p, In p pathValues -> listingError (cwdEntry host p) = None) ->
    outcome (collectExisting host pathValues acc)
    = Returned (acc ++ filter (detects host) pathValues)%list
    /\ Forall (fun e => preflight e = true)
         (trace (collectExisting host pathValues acc))
    /\ (forall p, In p pathValues -> truthy p = true ->
        In (EPathExists (InCwd p))
          (trace (collectExisting host pathValues acc))).
Proof.
  induction pathValues as [| p rest IH]; intros acc Hs.
  - simpl. rewrite app_nil_r. repeat split; auto; intros p [].
  - destruct (collectExisting_step host p rest acc) as (t & Ht & Hp & Htr & Hout).
    { apply Hs. left. reflexivity. }
    destruct (IH (if detects host p then (acc ++ [p])%list else acc))
      as (IHout & IHt & IHp).
    { intros q Hq. apply Hs. right. exact Hq. }
    rewrite Htr, Hout, IHout. repeat split.
    + simpl. destruct (detects host p); [rewrite <- app_assoc |]; reflexivity.
    + apply Forall_app. auto.
    + intros q [<- | Hq] Hq'; apply in_or_app; auto.
Qed.


Lemma questions_preflight argv initMode tools :
  Forall (fun e => preflight e = true) (questions argv initMode tools).
Proof.
  unfold questions, asked.
  repeat (apply Forall_app; split);
    match goal with
    | |- Forall _ (if ?b then _ else _) => destruct b
    end; repeat constructor.
Qed.

Lemma checkConflicts_run host template fileNames :
  templateFiles host template = Fulfilled fileNames ->
  (forall p, In p (paths.values ++ fileNames)%list ->
             listingError (cwdEntry host p) = None) ->
  outcome (checkConflicts host template)
  = (if (0 <? length (filter (detects host) (paths.values ++ fileNames)))%nat
     then Thrown (conflictError host
                    (filter (detects host) (paths.values ++ fileNames)%list))
     else Returned tt)
  /\ Forall (fun e => preflight e = true) (trace (checkConflicts host template))
  /\ (forall p, In p (paths.values ++ fileNames)%list -> truthy p = true ->
      In (EPathExists (InCwd p)) (trace (checkConflicts host template))).
Proof.
  intros Hfiles Hs.
  destruct (collectExisting_run host (paths.values ++ fileNames)%list [] Hs)
    as (Hout & Ht & Hp).
  unfold checkConflicts, readTemplateDir. rewrite Hfiles.
  cbn [bind emit ret await app].
  revert Hout Ht Hp. clear Hs.
  generalize (paths.values ++ fileNames)%list. intros candidates.
  destruct (collectExisting host candidates []) as [t r].
  unfold outcome, trace. cbn [fst snd app]. intros -> Ht Hp.
  cbn [bind].
  destruct (0 <? length (filter (detects host) candidates))%nat;
    unfold throw, ret; cbn [fst snd]; rewrite app_nil_r;
    (split; [reflexivity |]); split.
  - constructor; [reflexivity | exact Ht].
  - intros p Hin Htruthy. right. apply Hp; assumption.
  - constructor; [reflexivity | exact Ht].
  - intros p Hin Htruthy. right. apply Hp; assumption.
Qed.

(** C4 on the code: with a regular file at [tsconfig.json], a conflict, and
    a FIFO at [.gitignore], the scan ends with the [ENOTDIR] error of
    [readdir] instead of the conflict error; the conflict is not reported
    and the candidates after the FIFO are not examined.  With an unreadable
    directory in place of the FIFO the error is [EACCES].  With a symbolic
    link to an empty directory as the only conflict there is no error at
    all, and the pipeline runs and writes over the link. *)
Theorem conflict_scan_cut_short :
  specConflict
    (cwdEntry
       (Sample.mk Sample.allTools
          (Sample.at_ "tsconfig.json" (Present RegularFile)
             (Sample.at_ ".gitignore" (Present Special) Sample.emptyCwd)))
       "tsconfig.json")
  = true
  /\ outcome
       (init (Sample.mk Sample.allTools
                (Sample.at_ "tsconfig.json" (Present RegularFile)
                   (Sample.at_ ".gitignore" (Present Special)
                      Sample.emptyCwd)))
          (Sample.withYes true) InitMode.Game)
     = Thrown {| message := "ENOTDIR" |}
  /\ ~ In (EPathExists (InCwd ".gitattributes"))
         (trace
            (init (Sample.mk Sample.allTools
                     (Sample.at_ "tsconfig.json" (Present RegularFile)
                        (Sample.at_ ".gitignore" (Present Special)
                           Sample.emptyCwd)))
               (Sample.withYes true) InitMode.Game))
  /\ outcome
       (init (Sample.mk Sample.allTools
                (Sample.at_ "tsconfig.json" (Present RegularFile)
                   (Sample.at_ ".gitignore"
                      (Present (UnreadableDirectory [])) Sample.emptyCwd)))
          (Sample.withYes true) InitMode.Game)
     = Thrown {| message := "EACCES" |}
  /\ specConflict (SymbolicLink (Some (Directory []))) = true
  /\ In (ECopy configTemplate.gitignore (InCwd ".gitignore"))
       (trace
          (init (Sample.mk Sample.allTools
                   (Sample.at_ ".gitignore"
                      (SymbolicLink (Some (Directory []))) Sample.emptyCwd))
             (Sample.withYes true) InitMode.Game)).
Proof.
  split; [reflexivity |]. split; [reflexivity |].
  split.
  - vm_compute. intros H.
    repeat match type of H with
           | _ \/ _ => destruct H as [H | H]
           end; try discriminate H; exact H.
  - split; [reflexivity |]. split; [reflexivity |].
    vm_compute. tauto.
Qed.

(** Where neither a symbolic link nor an unreadable directory is involved,
    the verdict of the scan is the conflict rule of the specification. *)
Lemma detects_without_links host p :
  (forall target, cwdEntry host p <> SymbolicLink target) ->
  (forall entries, cwdEntry host p <> Present (UnreadableDirectory entries)) ->
  detects host p = truthy p && specConflict (cwdEntry host p).
Proof.
  unfold detects, specConflict. intros Hlink Hlocked.
  destruct (cwdEntry host p) as [| [| entries | entries |] | target]; simpl;
    try reflexivity.
  - exfalso. apply (Hlocked entries). reflexivity.
  - exfalso. apply (Hlink target). reflexivity.
Qed.

(** C5 at a symbolic link: the rule of the specification makes it a
    conflict, yet the scan follows the link; a link to an empty directory
    and a dangling link pass unreported and the pipeline writes over
    them. *)
Theorem symbolic_link_not_reported :
  specConflict (SymbolicLink (Some (Directory []))) = true
  /\ outcome
       (checkConflicts
          (Sample.mk Sample.allTools
             (Sample.at_ ".gitignore" (SymbolicLink (Some (Directory [])))
                Sample.emptyCwd))
          InitMode.Game)
     = Returned tt
  /\ In (ECopy configTemplate.gitignore (InCwd ".gitignore"))
       (trace
          (init (Sample.mk Sample.allTools
                   (Sample.at_ ".gitignore"
                      (SymbolicLink (Some (Directory []))) Sample.emptyCwd))
             (Sample.withYes true) InitMode.Game))
  /\ specConflict (SymbolicLink None) = true
  /\ outcome
       (checkConflicts
          (Sample.mk Sample.allTools
             (Sample.at_ ".gitignore" (SymbolicLink None) Sample.emptyCwd))
          InitMode.Game)
     = Returned tt.
Proof.
  split; [reflexivity |]. split; [reflexivity |].
  split; [vm_compute; tauto |].
  split; reflexivity.
Qed.

(** ** The pipeline *)

Lemma getProp_setProp_same props k v : getProp (setProp props k v) k = Some v.
Proof.
  induction props as [| [k' v'] rest IH]; simpl.
  - rewrite String.eqb_refl. reflexivity.
  - destruct (String.eqb k' k) eqn:Hk; simpl.
    + rewrite String.eqb_refl. reflexivity.
    + rewrite Hk. exact IH.
Qed.

Lemma getProp_setProp_other props k k' v :
  k' <> k -> getProp (setProp props k v) k' = getProp props k'.
Proof.
  intros Hne. induction props as [| [k0 v0] rest IH]; simpl.
  - destruct (String.eqb_spec k k'); [congruence | reflexivity].
  - destruct (String.eqb_spec k0 k) as [-> | Hk]; simpl.
    + destruct (String.eqb_spec k k'); [congruence | reflexivity].
    + destruct (String.eqb k0 k'); [reflexivity | exact IH].
Qed.

Ltac prop_lookup :=
  repeat first [ rewrite getProp_setProp_same
               | rewrite getProp_setProp_other by discriminate ].

Lemma compile_Returned host :
  outcome (compile host) = Returned tt ->
  trace (compile host) = [EBenchmark "Compiling.."; ECmd "npm run build"].
Proof.
  unfold compile, benchmark, cmd.
  destruct (exec host "npm run build"); simpl; [reflexivity | discriminate].
Qed.

(** A run of the pipeline that completes is the succession of its nine
    steps, each of which completes. *)
Lemma pipeline_Returned host cfg :
  outcome (pipeline host cfg) = Returned tt ->
  trace (pipeline host cfg)
  = (trace (initializePackageJson host cfg)
     ++ trace (when (git cfg) (initializeGit host))
     ++ trace (installDependencies host cfg)
     ++ trace (when (PackageManager.eqb (packageManager cfg)
                       PackageManager.Yarn3) (setupYarn3 host))
     ++ trace (when (eslint cfg) (configureEslint host cfg))
     ++ trace (when (prettier cfg) (configurePrettier host))
     ++ trace (when (vscode cfg) (configureVscode host cfg))
     ++ trace (copyTemplate host cfg)
     ++ trace (compile host))%list
  /\ outcome (when (vscode cfg) (configureVscode host cfg)) = Returned tt
  /\ outcome (compile host) = Returned tt.
Proof.
  unfold pipeline. intros H.
  repeat match type of H with
         | outcome (bind ?m ?f) = Returned _ =>
             let a := fresh "a" in
             let Ha := fresh "Ha" in
             destruct (bind_outcome_Returned m f _ H) as (a & Ha & H');
             rewrite (proj1 (bind_Returned m f a Ha));
             clear H; rename H' into H; destruct a
         end.
  repeat split; assumption.
Qed.

(** C3 on the code: a pipeline that completes ends with the fixed command
    [npm run build], whatever package manager was chosen. *)
Theorem final_step_runs_npm_build host cfg :
  outcome (pipeline host cfg) = Returned tt ->
  exists t,
    trace (pipeline host cfg)
    = (t ++ [EBenchmark "Compiling.."; ECmd "npm run build"])%list.
Proof.
  intros H. destruct (pipeline_Returned host cfg H) as (Htrace & _ & Hc).
  rewrite Htrace, (compile_Returned host Hc).
  rewrite !app_assoc. eexists. reflexivity.
Qed.

Lemma final_step_runs_npm_build_witness :
  outcome
    (pipeline Sample.quiet
       (Sample.config InitMode.Game true true true true PackageManager.PNPM))
  = Returned tt
  /\ (exists t,
        trace
          (pipeline Sample.quiet
             (Sample.config InitMode.Game true true true true
                PackageManager.PNPM))
        = (t ++ [EBenchmark "Compiling.."; ECmd "npm run build"])%list)
  /\ PackageManagerCommands.build
       (packageManagerCommands PackageManager.PNPM)
     = "pnpm run build".
Proof.
  split; [reflexivity |]. split; [| reflexivity].
  apply (final_step_runs_npm_build Sample.quiet
           (Sample.config InitMode.Game true true true true
              PackageManager.PNPM)).
  reflexivity.
Defined.

(** C8: the manifest step writes the manifest read after the init command,
    with its scripts replaced.  In package mode the name is prefixed with
    the scope, [main] is the library entry point and the scripts hold
    [prepublishOnly], the build command of the chosen package manager; in
    every other mode the scripts are [build] and [watch] only and every
    other field is as it was read. *)
Theorem manifest_fields host cfg props stdout :
  exec host
    (PackageManagerCommands.init (packageManagerCommands (packageManager cfg)))
  = ExecOk stdout ->
  readJson host (InCwd paths.packageJson) = Fulfilled (JObj props) ->
  exists written,
    (forall c,
       In (EOutputFile (InCwd paths.packageJson) c)
         (trace (initializePackageJson host cfg))
       <-> c = JsonText (JObj written) "  ")
    /\ (template cfg = InitMode.Package ->
        (forall name, getProp props "name" = Some (JStr name) ->
           getProp written "name" = Some (JStr (RBXTS_SCOPE ++ "/" ++ name)))
        /\ getProp written "main" = Some (JStr "out/init.lua")
        /\ getProp written "scripts"
           = Some (JObj [("build", JStr "rbxtsc");
                         ("watch", JStr "rbxtsc -w");
                         ("prepublishOnly",
                          JStr (PackageManagerCommands.build
                                  (packageManagerCommands
                                     (packageManager cfg))))]))
    /\ (template cfg <> InitMode.Package ->
        getProp written "scripts"
        = Some (JObj [("build", JStr "rbxtsc"); ("watch", JStr "rbxtsc -w")])
        /\ forall k, k <> "scripts" -> getProp written k = getProp props k).
Proof.
  intros Hexec Hread.
  unfold initializePackageJson, benchmark, cmd, fs_readJson, fs_outputFile,
    guarded, rewriteManifest, packageFields.
  rewrite Hexec, Hread.
  cbn [bind emit ret await assign app member].
  destruct (InitMode.eqb (template cfg) InitMode.Package) eqn:Hmode.
  - cbn [bind emit ret await assign app member].
    match goal with
    | |- context [EOutputFile _ (JsonText (JObj ?w) _)] => exists w
    end.
    split; [| split].
    + intros c.
      destruct (fsFault host _); cbn [trace fst app bind ret throw];
        simpl; split; intros H.
      all: repeat match type of H with
                  | _ \/ _ => destruct H as [H | H]
                  end;
        try discriminate H; try contradiction.
      all: try (injection H as <-; reflexivity).
      all: subst c; auto.
    + intros _. split; [| split].
      * intros name Hname. prop_lookup. rewrite Hname. reflexivity.
      * prop_lookup. reflexivity.
      * prop_lookup. reflexivity.
    + intros Hne. destruct (template cfg); try discriminate Hmode.
      exfalso. apply Hne. reflexivity.
  - cbn [bind emit ret await assign app member].
    exists (setProp props "scripts"
              (JObj [("build", JStr "rbxtsc"); ("watch", JStr "rbxtsc -w")])).
    split; [| split].
    + intros c.
      destruct (fsFault host _); cbn [trace fst app bind ret throw];
        simpl; split; intros H.
      all: repeat match type of H with
                  | _ \/ _ => destruct H as [H | H]
                  end;
        try discriminate H; try contradiction.
      all: try (injection H as <-; reflexivity).
      all: subst c; auto.
    + intros Hpkg. rewrite Hpkg in Hmode. discriminate Hmode.
    + intros _. split.
      * apply getProp_setProp_same.
      * intros k Hk. apply getProp_setProp_other. exact Hk.
Qed.

Lemma manifest_fields_witness :
  template
    (Sample.config InitMode.Package true true true true PackageManager.PNPM)
  = InitMode.Package
  /\ In (EOutputFile (InCwd paths.packageJson)
          (JsonText
             (JObj [("name", JStr "@rbxts/my-project");
                    ("version", JStr "1.0.0");
                    ("main", JStr "out/init.lua");
                    ("scripts",
                     JObj [("build", JStr "rbxtsc");
                           ("watch", JStr "rbxtsc -w");
                           ("prepublishOnly", JStr "pnpm run build")]);
                    ("types", JStr "out/index.d.ts");
                    ("files", JArr [JStr "out"; JStr "!**/*.tsbuildinfo"]);
                    ("publishConfig", JObj [("access", JStr "public")])])
             "  "))
       (trace
          (initializePackageJson Sample.quiet
             (Sample.config InitMode.Package true true true true
                PackageManager.PNPM)))
  /\ exists written,
       getProp written "name" = Some (JStr "@rbxts/my-project")
       /\ getProp written "main" = Some (JStr "out/init.lua").
Proof.
  split; [reflexivity |]. split; [vm_compute; tauto |].
  destruct (manifest_fields Sample.quiet
              (Sample.config InitMode.Package true true true true
                 PackageManager.PNPM)
              [("name", JStr "my-project"); ("version", JStr "1.0.0");
               ("main", JStr "index.js");
               ("scripts", JObj [("test", JStr "exit 1")])]
              "" eq_refl eq_refl)
    as (written & _ & Hpkg & _).
  exists written.
  destruct (Hpkg eq_refl) as (Hname & Hmain & _).
  split; [apply (Hname "my-project"); reflexivity | exact Hmain].
Defined.

Lemma configureVscode_settings host cfg c :
  In (EOutputFile (InCwd paths.settings) c) (trace (configureVscode host cfg)) ->
  c = JsonText (JObj (vscodeSettings cfg)) tab.
Proof.
  unfold configureVscode, benchmark, cmd, fs_outputFile, guarded.
  destruct (PackageManager.eqb (packageManager cfg) PackageManager.Yarn3);
    [destruct (exec host "yarn dlx @yarnpkg/sdks vscode") |];
    cbn [bind emit ret throw app];
    repeat match goal with
           | |- context [fsFault host ?e] => destruct (fsFault host e)
           end;
    cbn [bind emit ret throw app trace fst];
    simpl; intros H;
    repeat match type of H with
           | _ \/ _ => destruct H as [H | H]
           end;
    try discriminate H; try contradiction;
    injection H as <-; reflexivity.
Qed.

Lemma configureVscode_Returned host cfg :
  outcome (configureVscode host cfg) = Returned tt ->
  In (EOutputFile (InCwd paths.settings)
        (JsonText (JObj (vscodeSettings cfg)) tab))
    (trace (configureVscode host cfg)).
Proof.
  unfold configureVscode, benchmark, cmd, fs_outputFile, guarded.
  destruct (PackageManager.eqb (packageManager cfg) PackageManager.Yarn3);
    [destruct (exec host "yarn dlx @yarnpkg/sdks vscode") |];
    cbn [bind emit ret throw app];
    repeat match goal with
           | |- context [fsFault host ?e] => destruct (fsFault host e)
           end;
    cbn [bind emit ret throw app trace outcome fst snd];
    intros H; try discriminate H; simpl; tauto.
Qed.

(** C9: the settings the editor step writes are [vscodeSettings]; with the
    formatter alone they name the formatter extension as default formatter
    of both language blocks, with the linter (alone or with the formatter)
    they name the linter extension; and a pipeline that completes with
    editor configuration enabled has written them. *)
Theorem editor_default_formatter host cfg :
  (forall c,
     In (EOutputFile (InCwd paths.settings) c)
       (trace (configureVscode host cfg)) ->
     c = JsonText (JObj (vscodeSettings cfg)) tab)
  /\ (vscode cfg = true -> outcome (pipeline host cfg) = Returned tt ->
      In (EOutputFile (InCwd paths.settings)
            (JsonText (JObj (vscodeSettings cfg)) tab))
        (trace (pipeline host cfg)))
  /\ (eslint cfg = false -> prettier cfg = true ->
      defaultFormatter (vscodeSettings cfg) "[typescript]"
      = Some (JStr "esbenp.prettier-vscode")
      /\ defaultFormatter (vscodeSettings cfg) "[typescriptreact]"
         = Some (JStr "esbenp.prettier-vscode"))
  /\ (eslint cfg = true ->
      defaultFormatter (vscodeSettings cfg) "[typescript]"
      = Some (JStr "dbaeumer.vscode-eslint")
      /\ defaultFormatter (vscodeSettings cfg) "[typescriptreact]"
         = Some (JStr "dbaeumer.vscode-eslint")).
Proof.
  split; [| split; [| split]].
  - apply configureVscode_settings.
  - intros Hv Hret.
    destruct (pipeline_Returned host cfg Hret) as (Htrace & Hstep & _).
    rewrite Htrace. rewrite Hv in *. simpl when in *.
    do 6 (apply in_or_app; right).
    apply in_or_app. left.
    apply configureVscode_Returned. exact Hstep.
  - unfold vscodeSettings. intros -> ->. split; reflexivity.
  - unfold vscodeSettings. intros ->.
    destruct (prettier cfg); split; reflexivity.
Qed.

Lemma editor_default_formatter_witness :
  outcome
    (pipeline Sample.quiet
       (Sample.config InitMode.Model false false true true PackageManager.NPM))
  = Returned tt
  /\ In (EOutputFile (InCwd paths.settings)
          (JsonText
             (JObj [("typescript.enablePromptUseWorkspaceTsdk", JBool true);
                    ("[typescript]", formatterBlock "esbenp.prettier-vscode");
                    ("[typescriptreact]",
                     formatterBlock "esbenp.prettier-vscode")])
             tab))
       (trace
          (pipeline Sample.quiet
             (Sample.config InitMode.Model false false true true
                PackageManager.NPM)))
  /\ defaultFormatter
       (vscodeSettings
          (Sample.config InitMode.Model false true true true
             PackageManager.NPM))
       "[typescript]"
     = Some (JStr "dbaeumer.vscode-eslint").
Proof.
  destruct (editor_default_formatter Sample.quiet
              (Sample.config InitMode.Model false false true true
                 PackageManager.NPM))
    as (_ & Hwritten & _).
  destruct (editor_default_formatter Sample.quiet
              (Sample.config InitMode.Model false true true true
                 PackageManager.NPM))
    as (_ & _ & _ & Hlinter).
  split; [reflexivity |].
  split; [apply Hwritten; reflexivity |].
  apply (Hlinter eq_refl).
Defined.

(** * Further properties of the command *)

(** ** The pre-flight phase *)

Lemma bind_trace_incl {A B : Type} (m : M A) (f : A -> M B) ev :
  In ev (trace m) -> In ev (trace (bind m f)).
Proof.
  destruct m as [t [a | e | c]]; simpl; auto.
  destruct (f a) as [t' r]; simpl. intros H. apply in_or_app. auto.
Qed.

Lemma collectExisting_preflight host pathValues :
  forall acc,
    Forall (fun e => preflight e = true)
      (trace (collectExisting host pathValues acc)).
Proof.
  induction pathValues as [| p rest IH]; intros acc; cbn [collectExisting].
  - constructor.
  - unfold fs_pathExists, wouldOverwrite, fs_stat, fs_readdir.
    repeat first [ apply IH | silent_step ].
Qed.

Lemma checkConflicts_preflight host template :
  Forall (fun e => preflight e = true) (trace (checkConflicts host template)).
Proof.
  unfold checkConflicts, readTemplateDir.
  repeat first [ apply collectExisting_preflight | silent_step ].
Qed.

Lemma resolveOptions_preflight host argv initMode tools :
  Forall (fun e => preflight e = true)
    (trace (resolveOptions host argv initMode tools)).
Proof.
  apply Forall_forall. intros e He.
  apply resolveOptions_trace_In in He.
  pose proof (questions_preflight argv initMode tools) as Hq.
  rewrite Forall_forall in Hq. apply Hq. exact He.
Qed.

(** Where an event of a run comes from: the pre-flight phase, or the
    pipeline once the options are resolved and the scan has returned. *)
Lemma init_trace_In host argv initMode e :
  In e (trace (init host argv initMode)) ->
  preflight e = true
  \/ exists cfg,
       outcome (resolveOptions host argv initMode (toolAvailability host))
       = Returned cfg
       /\ outcome (checkConflicts host (template cfg)) = Returned tt
       /\ In e (trace (pipeline host cfg)).
Proof.
  unfold init. rewrite probeTools_run. intros H.
  apply bind_trace_In in H. destruct H as [H | (tools & Htools & H)].
  - left. simpl in H.
    repeat match type of H with
           | _ \/ _ => destruct H as [<- | H]
           end; try reflexivity; contradiction.
  - injection Htools as <-.
    apply bind_trace_In in H. destruct H as [H | (cfg & Hcfg & H)].
    + left.
      pose proof (resolveOptions_preflight host argv initMode
                    (toolAvailability host)) as Hs.
      rewrite Forall_forall in Hs. apply Hs. exact H.
    + apply bind_trace_In in H. destruct H as [H | ([] & Hcheck & H)].
      * left. pose proof (checkConflicts_preflight host (template cfg)) as Hs.
        rewrite Forall_forall in Hs. apply Hs. exact H.
      * right. exists cfg. auto.
Qed.

(** X1: whatever the host does, a step, a command or a change to the file
    system occurs in a run only as part of the pipeline, and the pipeline
    runs only after the options were resolved and the conflict scan
    returned without error. *)
Theorem changes_only_after_clean_scan host argv initMode e :
  In e (trace (init host argv initMode)) ->
  preflight e = false ->
  exists cfg,
    outcome (resolveOptions host argv initMode (toolAvailability host))
    = Returned cfg
    /\ outcome (checkConflicts host (template cfg)) = Returned tt
    /\ In e (trace (pipeline host cfg)).
Proof.
  intros Hin Hpre.
  destruct (init_trace_In host argv initMode e Hin) as [Hp | Hcfg].
  - congruence.
  - exact Hcfg.
Qed.

Lemma changes_only_after_clean_scan_witness :
  In (ECmd "npm init -y")
    (trace (init Sample.quiet (Sample.withYes true) InitMode.Model))
  /\ preflight (ECmd "npm init -y") = false
  /\ exists cfg,
       outcome (resolveOptions Sample.quiet (Sample.withYes true)
                  InitMode.Model (toolAvailability Sample.quiet))
       = Returned cfg
       /\ outcome (checkConflicts Sample.quiet (template cfg)) = Returned tt
       /\ In (ECmd "npm init -y") (trace (pipeline Sample.quiet cfg)).
Proof.
  assert (Hin : In (ECmd "npm init -y")
                  (trace (init Sample.quiet (Sample.withYes true)
                            InitMode.Model)))
    by (vm_compute; tauto).
  split; [exact Hin |]. split; [reflexivity |].
  apply (changes_only_after_clean_scan Sample.quiet (Sample.withYes true)
           InitMode.Model (ECmd "npm init -y") Hin).
  reflexivity.
Defined.

Lemma pipeline_first_step host cfg :
  In (EBenchmark "Initializing package.json..") (trace (pipeline host cfg)).
Proof.
  unfold pipeline. apply bind_trace_incl.
  unfold initializePackageJson, benchmark. apply bind_trace_incl.
  left. reflexivity.
Qed.

(** X2: when the user aborts no question, the template directory can be
    listed, and no candidate path leads to a special file or to a directory
    that may not be read, the pipeline starts exactly when the scan (which
    follows symbolic links) finds no conflict. *)
Theorem pipeline_starts_iff_clean host argv initMode cfg fileNames :
  outcome (resolveOptions host argv initMode (toolAvailability host))
  = Returned cfg ->
  templateFiles host (template cfg) = Fulfilled fileNames ->
  (forall p, In p (paths.values ++ fileNames)%list ->
             listingError (cwdEntry host p) = None) ->
  In (EBenchmark "Initializing package.json..")
    (trace (init host argv initMode))
  <-> filter (detects host) (paths.values ++ fileNames)%list = [].
Proof.
  intros Hret Hfiles Hs.
  destruct (checkConflicts_run host (template cfg) fileNames Hfiles Hs)
    as (Hout & _ & _).
  split.
  - intros Hin.
    destruct (init_trace_In host argv initMode _ Hin)
      as [Hp | (cfg' & Hret' & Hcheck & _)]; [discriminate Hp |].
    rewrite Hret in Hret'. injection Hret' as <-.
    rewrite Hout in Hcheck.
    destruct (filter (detects host) (paths.values ++ fileNames))
      as [| x rest]; [reflexivity | discriminate Hcheck].
  - intros Hclean. rewrite Hclean in Hout. simpl in Hout.
    unfold init.
    rewrite (proj1 (bind_Returned (probeTools host) _ (toolAvailability host)
                      eq_refl)).
    apply in_or_app. right.
    rewrite (proj1 (bind_Returned _ _ cfg Hret)).
    apply in_or_app. right.
    rewrite (proj1 (bind_Returned _ _ tt Hout)).
    apply in_or_app. right.
    apply pipeline_first_step.
Qed.

Lemma pipeline_starts_iff_clean_witness :
  outcome (resolveOptions Sample.quiet (Sample.withYes true) InitMode.Game
             (toolAvailability Sample.quiet))
  = Returned (Sample.config InitMode.Game true true true true PackageManager.NPM)
  /\ filter (detects Sample.quiet)
       (paths.values ++ ["default.project.json"; "src"])%list = []
  /\ In (EBenchmark "Initializing package.json..")
       (trace (init Sample.quiet (Sample.withYes true) InitMode.Game)).
Proof.
  split; [reflexivity |]. split; [reflexivity |].
  apply (pipeline_starts_iff_clean Sample.quiet (Sample.withYes true)
           InitMode.Game
           (Sample.config InitMode.Game true true true true PackageManager.NPM)
           ["default.project.json"; "src"]).
  - reflexivity.
  - reflexivity.
  - intros p Hin. reflexivity.
  - reflexivity.
Defined.

Lemma collectExisting_special host pre p post code :
  forall acc,
    (forall q, In q pre -> listingError (cwdEntry host q) = None) ->
    truthy p = true ->
    listingError (cwdEntry host p) = Some code ->
    outcome (collectExisting host (pre ++ p :: post) acc)
    = Thrown (errno host code (InCwd p)).
Proof.
  induction pre as [| q pre IH]; intros acc Hpre Htruthy Hspecial.
  - simpl app. cbn [collectExisting]. rewrite Htruthy.
    unfold listingError in Hspecial.
    unfold fs_pathExists, wouldOverwrite, fs_stat, fs_readdir.
    destruct (resolveEntry (cwdEntry host p)) as [[| entries | entries |] |];
      try discriminate Hspecial; injection Hspecial as <-; reflexivity.
  - rewrite <- app_comm_cons.
    destruct (collectExisting_step host q (pre ++ p :: post) acc)
      as (t & _ & _ & _ & Hout).
    { apply Hpre. left. reflexivity. }
    rewrite Hout. apply IH; try assumption.
    intros q' Hq'. apply Hpre. right. exact Hq'.
Qed.

Lemma collectExisting_stops host pre p post code :
  forall acc,
    (forall q, In q pre -> listingError (cwdEntry host q) = None) ->
    truthy p = true ->
    listingError (cwdEntry host p) = Some code ->
    collectExisting host (pre ++ p :: post) acc
    = collectExisting host (pre ++ [p]) acc.
Proof.
  induction pre as [| q pre IH]; intros acc Hpre Htruthy Hspecial.
  - simpl app. cbn [collectExisting]. rewrite Htruthy.
    unfold listingError in Hspecial.
    unfold fs_pathExists, wouldOverwrite, fs_stat, fs_readdir.
    destruct (resolveEntry (cwdEntry host p)) as [[| entries | entries |] |];
      try discriminate Hspecial; reflexivity.
  - rewrite <- !app_comm_cons. cbn [collectExisting].
    assert (Hq : listingError (cwdEntry host q) = None)
      by (apply Hpre; left; reflexivity).
    assert (Hrest : forall acc',
               collectExisting host (pre ++ p :: post) acc'
               = collectExisting host (pre ++ [p]) acc').
    { intros acc'. apply IH; try assumption.
      intros q' Hq'. apply Hpre. right. exact Hq'. }
    unfold listingError in Hq.
    unfold fs_pathExists, wouldOverwrite, fs_stat, fs_readdir.
    destruct (truthy q); [| apply Hrest].
    destruct (resolveEntry (cwdEntry host q)) as [[| entries | entries |] |];
      try discriminate Hq; cbn [bind emit ret throw app isFile isSymbolicLink
                                  statsOf orb];
      rewrite Hrest; reflexivity.
Qed.

Lemma collectExisting_examined host pathValues :
  forall acc q,
    In (EPathExists (InCwd q)) (trace (collectExisting host pathValues acc)) ->
    In q pathValues.
Proof.
  induction pathValues as [| p rest IH]; intros acc q; cbn [collectExisting].
  - intros [].
  - unfold fs_pathExists, wouldOverwrite, fs_stat, fs_readdir.
    destruct (truthy p); [| intros H; right; exact (IH _ _ H)].
    intros H. apply bind_trace_In in H.
    destruct H as [H | (present & _ & H)].
    + simpl in H. destruct H as [H | []]. injection H as <-. left. reflexivity.
    + right. destruct present; [| exact (IH _ _ H)].
      apply bind_trace_In in H. destruct H as [H | (hit & _ & H)].
      * exfalso. revert H.
        destruct (resolveEntry (cwdEntry host p))
          as [[| entries | entries |] |];
          simpl; intros H;
          repeat match type of H with
                 | _ \/ _ => destruct H as [H | H]
                 end; try discriminate H; contradiction.
      * exact (IH _ _ H).
Qed.

(** X3: when the user aborts no question and the template directory can be
    listed, and a non-empty candidate path leads (links followed) to a
    special file or to a directory that may not be read while no earlier
    candidate does, the run fails with the error of [readdir] on that path
    ([ENOTDIR] for a special file, [EACCES] for an unreadable directory),
    not with the conflict list; the scan has examined no candidate after
    that path, and no step has started and nothing has changed. *)
Theorem special_file_aborts_scan
  host argv initMode cfg fileNames pre p post code :
  outcome (resolveOptions host argv initMode (toolAvailability host))
  = Returned cfg ->
  templateFiles host (template cfg) = Fulfilled fileNames ->
  (paths.values ++ fileNames)%list = (pre ++ p :: post)%list ->
  (forall q, In q pre -> listingError (cwdEntry host q) = None) ->
  truthy p = true ->
  listingError (cwdEntry host p) = Some code ->
  outcome (init host argv initMode) = Thrown (errno host code (InCwd p))
  /\ (code = "ENOTDIR" \/ code = "EACCES")
  /\ (forall q, In (EPathExists (InCwd q)) (trace (init host argv initMode)) ->
      In q (pre ++ [p])%list)
  /\ Forall (fun e => preflight e = true) (trace (init host argv initMode)).
Proof.
  intros Hret Hfiles Hsplit Hpre Htruthy Hspecial.
  assert (Hcheck : outcome (checkConflicts host (template cfg))
                   = Thrown (errno host code (InCwd p))).
  { pose proof (collectExisting_special host pre p post code [] Hpre Htruthy
                  Hspecial) as Hscan.
    unfold checkConflicts, readTemplateDir. rewrite Hfiles.
    cbn [bind emit ret await app]. rewrite Hsplit.
    destruct (collectExisting host (pre ++ p :: post) []) as [t r].
    unfold outcome in Hscan. cbn [snd] in Hscan. subst r. reflexivity. }
  assert (Hout : outcome (init host argv initMode)
                 = Thrown (errno host code (InCwd p))).
  { unfold init.
    rewrite (proj2 (bind_Returned (probeTools host) _ (toolAvailability host)
                      eq_refl)).
    rewrite (proj2 (bind_Returned _ _ cfg Hret)).
    apply (proj2 (bind_Thrown _ _ _ Hcheck)). }
  split; [exact Hout |]. split; [| split].
  - unfold listingError in Hspecial.
    destruct (resolveEntry (cwdEntry host p)) as [[| entries | entries |] |];
      try discriminate Hspecial; injection Hspecial as <-; auto.
  - intros q Hin.
    destruct (init_trace_In host argv initMode _ Hin)
      as [_ | (cfg' & Hret' & Hcheck' & _)].
    + revert Hin. unfold init.
      rewrite (proj1 (bind_Returned (probeTools host) _
                        (toolAvailability host) eq_refl)).
      rewrite (proj1 (bind_Returned _ _ cfg Hret)).
      rewrite (proj1 (bind_Thrown _ _ _ Hcheck)).
      intros Hin. apply in_app_or in Hin. destruct Hin as [Hin | Hin].
      { simpl in Hin.
        repeat match type of Hin with
               | _ \/ _ => destruct Hin as [Hin | Hin]
               end; try discriminate Hin; contradiction. }
      apply in_app_or in Hin. destruct Hin as [Hin | Hin].
      { apply resolveOptions_trace_In in Hin.
        unfold questions in Hin. rewrite !in_app_iff, !asked_In in Hin.
        repeat match type of Hin with
               | _ \/ _ => destruct Hin as [Hin | Hin]
               end; destruct Hin as [Hin _]; discriminate Hin. }
      revert Hin. unfold checkConflicts, readTemplateDir. rewrite Hfiles.
      cbn [bind emit ret await app]. rewrite Hsplit.
      pose proof (collectExisting_special host pre p post code [] Hpre
                    Htruthy Hspecial) as Hscan.
      pose proof (collectExisting_examined host (pre ++ [p]) [] q)
        as Hexamined.
      rewrite <- (collectExisting_stops host pre p post code [] Hpre Htruthy
                    Hspecial) in Hexamined.
      destruct (collectExisting host (pre ++ p :: post) []) as [t r].
      unfold outcome in Hscan. cbn [snd] in Hscan. subst r.
      cbn [bind trace fst] in *. intros [Hin | Hin]; [discriminate Hin |].
      apply Hexamined. exact Hin.
    + rewrite Hret in Hret'. injection Hret' as <-.
      rewrite Hcheck in Hcheck'. discriminate Hcheck'.
  - apply Forall_forall. intros e Hin.
    destruct (init_trace_In host argv initMode _ Hin)
      as [Hp | (cfg' & Hret' & Hcheck' & _)]; [exact Hp |].
    rewrite Hret in Hret'. injection Hret' as <-.
    rewrite Hcheck in Hcheck'. discriminate Hcheck'.
Qed.

Lemma special_file_aborts_scan_witness :
  outcome
    (init (Sample.mk Sample.allTools
             (Sample.at_ ".yarnrc" (Present (UnreadableDirectory []))
                Sample.emptyCwd))
       (Sample.withYes true) InitMode.Game)
  = Thrown {| message := "EACCES" |}
  /\ Forall (fun e => preflight e = true)
       (trace
          (init (Sample.mk Sample.allTools
                   (Sample.at_ ".yarnrc" (Present (UnreadableDirectory []))
                      Sample.emptyCwd))
             (Sample.withYes true) InitMode.Game)).
Proof.
  destruct (special_file_aborts_scan
              (Sample.mk Sample.allTools
                 (Sample.at_ ".yarnrc" (Present (UnreadableDirectory []))
                    Sample.emptyCwd))
              (Sample.withYes true) InitMode.Game
              (Sample.config InitMode.Game true true true true
                 PackageManager.NPM)
              ["default.project.json"; "src"]
              [paths.packageJson; paths.packageLockJson]
              paths.yarnncOld
              [paths.yarnnc; paths.tsconfig; paths.gitignore;
               paths.gitattributes; paths.eslintrc; paths.eslintrcIgnore;
               paths.prettierrc; paths.prettierIgnore; paths.settings;
               paths.extensions; "default.project.json"; "src"]
              "EACCES")
    as (Hout & _ & _ & Hquiet).
  - reflexivity.
  - reflexivity.
  - reflexivity.
  - intros q [<- | [<- | []]]; reflexivity.
  - reflexivity.
  - reflexivity.
  - split; [exact Hout | exact Hquiet].
Defined.

Lemma paths_values_truthy p : In p paths.values -> truthy p = true.
Proof.
  intros H. simpl in H.
  repeat match type of H with
         | _ \/ _ => destruct H as [<- | H]
         end; try reflexivity; destruct H.
Qed.

Lemma plain_listable e : plain e = true -> listingError e = None.
Proof. destruct e as [| [| entries | entries |] | target]; try discriminate; reflexivity. Qed.

Lemma plain_detects host p :
  plain (cwdEntry host p) = true -> truthy p = true ->
  detects host p = specConflict (cwdEntry host p).
Proof.
  unfold detects. intros Hplain ->.
  destruct (cwdEntry host p) as [| [| entries | entries |] | target];
    try discriminate Hplain; reflexivity.
Qed.

(** X21: when the user aborts no question, the template directory can be
    listed and names no empty entry, and at every candidate path there is
    nothing, a regular file or a readable directory (no symbolic link, no
    special file, no unreadable directory), a working directory with
    [N >= 1] conflicting paths (regular files and non-empty directories)
    makes the run fail with the error that enumerates exactly those [N]
    paths, in candidate order, after every candidate has been examined and
    without any step, command or change. *)
Theorem conflicts_listed_before_any_step
  host argv initMode cfg fileNames N :
  outcome (resolveOptions host argv initMode (toolAvailability host))
  = Returned cfg ->
  templateFiles host (template cfg) = Fulfilled fileNames ->
  (forall p, In p fileNames -> truthy p = true) ->
  (forall p, In p (paths.values ++ fileNames)%list ->
             plain (cwdEntry host p) = true) ->
  length (filter (fun p => specConflict (cwdEntry host p))
            (paths.values ++ fileNames)%list) = N ->
  (1 <= N)%nat ->
  outcome (init host argv initMode)
  = Thrown (conflictError host
              (filter (fun p => specConflict (cwdEntry host p))
                 (paths.values ++ fileNames)%list))
  /\ (forall p, In p (paths.values ++ fileNames)%list ->
      In (EPathExists (InCwd p)) (trace (init host argv initMode)))
  /\ Forall (fun e => preflight e = true) (trace (init host argv initMode)).
Proof.
  intros Hret Hfiles Hnames Hplain HN Hpos.
  assert (Htruthy : forall p, In p (paths.values ++ fileNames)%list ->
                              truthy p = true).
  { intros p Hin. apply in_app_or in Hin.
    destruct Hin as [Hin | Hin];
      [apply paths_values_truthy | apply Hnames]; exact Hin. }
  assert (Hsame : filter (detects host) (paths.values ++ fileNames)%list
                  = filter (fun p => specConflict (cwdEntry host p))
                      (paths.values ++ fileNames)%list).
  { apply filter_ext_in. intros p Hin.
    apply plain_detects; [apply Hplain | apply Htruthy]; exact Hin. }
  destruct (checkConflicts_run host (template cfg) fileNames Hfiles)
    as (Hout & Ht & Hp).
  { intros p Hin. apply plain_listable, Hplain. exact Hin. }
  rewrite Hsame, HN in Hout.
  replace (0 <? N)%nat with true in Hout
    by (symmetry; apply Nat.ltb_lt; lia).
  pose proof (resolveOptions_preflight host argv initMode
                (toolAvailability host)) as Hqs.
  unfold init. rewrite probeTools_run. cbn [bind].
  destruct (resolveOptions host argv initMode (toolAvailability host))
    as [t1 r1].
  unfold outcome, trace in Hret, Hqs. cbn [fst snd] in Hret, Hqs. subst r1.
  cbn [bind].
  destruct (checkConflicts host (template cfg)) as [t2 r2].
  unfold outcome, trace in Hout, Ht, Hp. cbn [fst snd] in Hout, Ht, Hp.
  subst r2.
  cbn [bind app outcome trace fst snd].
  split; [reflexivity |]. split.
  - intros p Hin.
    do 4 right. apply in_or_app. right.
    apply Hp; [exact Hin | apply Htruthy; exact Hin].
  - repeat (constructor; [reflexivity |]).
    apply Forall_app. split; assumption.
Qed.

Lemma conflicts_listed_before_any_step_witness :
  outcome
    (init (Sample.mk Sample.allTools
             (Sample.at_ "tsconfig.json" (Present RegularFile)
                (Sample.at_ "src" (Present (Directory ["main.ts"]))
                   Sample.emptyCwd)))
       (Sample.withYes true) InitMode.Game)
  = Thrown
      {| message :=
           "Cannot initialize project, process could overwrite:" ++ newline
           ++ "  - tsconfig.json" ++ newline ++ "  - src" ++ newline |}
  /\ Forall (fun e => preflight e = true)
       (trace
          (init (Sample.mk Sample.allTools
                   (Sample.at_ "tsconfig.json" (Present RegularFile)
                      (Sample.at_ "src" (Present (Directory ["main.ts"]))
                         Sample.emptyCwd)))
             (Sample.withYes true) InitMode.Game)).
Proof.
  destruct (conflicts_listed_before_any_step
              (Sample.mk Sample.allTools
                 (Sample.at_ "tsconfig.json" (Present RegularFile)
                    (Sample.at_ "src" (Present (Directory ["main.ts"]))
                       Sample.emptyCwd)))
              (Sample.withYes true) InitMode.Game
              (Sample.config InitMode.Game true true true true
                 PackageManager.NPM)
              ["default.project.json"; "src"] 2)
    as (Hout & _ & Hquiet).
  - reflexivity.
  - reflexivity.
  - intros p [<- | [<- | []]]; reflexivity.
  - intros p Hin. simpl in Hin.
    repeat match type of Hin with
           | _ \/ _ => destruct Hin as [<- | Hin]
           end; try reflexivity; destruct Hin.
  - reflexivity.
  - lia.
  - split; [exact Hout | exact Hquiet].
Defined.

(** ** Cancelling the questions *)

(** The prompting phase never throws: it exits with status 1 when the user
    aborts a question that is asked, and resolves the options otherwise. *)
Lemma resolveOptions_outcome host argv initMode tools :
  outcome (resolveOptions host argv initMode tools)
  = if cancelled host argv initMode tools then Exited 1
    else Returned (destructure argv initMode tools
                     (collected host argv initMode tools)).
Proof.
  unfold resolveOptions, prompts, select, confirm, ask, cancelled, collected,
    aborts, answered.
  generalize (destructure argv initMode tools). intros finish.
  generalize (askTemplate initMode) (replySelect host "template")
    (askGit argv tools) (replyConfirm host "git")
    (askEslint argv) (replyConfirm host "eslint")
    (askPrettier argv) (replyConfirm host "prettier")
    (askVscode argv) (replyConfirm host "vscode")
    (askPackageManager argv tools) (replySelect host "packageManager").
  intros b1 r1 b2 r2 b3 r3 b4 r4 b5 r5 b6 r6.
  destruct b1; [destruct r1 |]; try reflexivity;
    (destruct b2; [destruct r2 |]; try reflexivity;
     (destruct b3; [destruct r3 |]; try reflexivity;
      (destruct b4; [destruct r4 |]; try reflexivity;
       (destruct b5; [destruct r5 |]; try reflexivity;
        (destruct b6; [destruct r6 |]; reflexivity))))).
Qed.

(** X4: when the user aborts any question that is asked, the run exits with
    status 1 and has started no step, run no command and changed no file;
    when no asked question is aborted, the options resolve. *)
Theorem cancellation_exits host argv initMode :
  (cancelled host argv initMode (toolAvailability host) = true ->
   outcome (init host argv initMode) = Exited 1
   /\ Forall (fun e => preflight e = true) (trace (init host argv initMode)))
  /\ (cancelled host argv initMode (toolAvailability host) = false ->
      exists cfg,
        outcome (resolveOptions host argv initMode (toolAvailability host))
        = Returned cfg).
Proof.
  pose proof (resolveOptions_outcome host argv initMode
                (toolAvailability host)) as Hout.
  split; intros Hc; rewrite Hc in Hout.
  - assert (Hexit : outcome (init host argv initMode) = Exited 1).
    { unfold init.
      rewrite (proj2 (bind_Returned (probeTools host) _
                        (toolAvailability host) eq_refl)).
      apply (proj2 (bind_Exited _ _ _ Hout)). }
    split; [exact Hexit |].
    apply Forall_forall. intros e Hin.
    destruct (init_trace_In host argv initMode _ Hin)
      as [Hp | (cfg & Hret & _)]; [exact Hp |].
    rewrite Hout in Hret. discriminate Hret.
  - eexists. exact Hout.
Qed.

Lemma cancellation_exits_witness :
  cancelled (Sample.withConfirm Sample.quiet (Sample.abortingAt "prettier"))
    Sample.noFlags InitMode.Game
    (toolAvailability
       (Sample.withConfirm Sample.quiet (Sample.abortingAt "prettier")))
  = true
  /\ outcome
       (init (Sample.withConfirm Sample.quiet (Sample.abortingAt "prettier"))
          Sample.noFlags InitMode.Game)
     = Exited 1
  /\ Forall (fun e => preflight e = true)
       (trace
          (init (Sample.withConfirm Sample.quiet
                   (Sample.abortingAt "prettier"))
             Sample.noFlags InitMode.Game)).
Proof.
  split; [reflexivity |].
  apply (proj1 (cancellation_exits
                  (Sample.withConfirm Sample.quiet
                     (Sample.abortingAt "prettier"))
                  Sample.noFlags InitMode.Game)).
  reflexivity.
Defined.

(** ** What is asked, and what is chosen without asking *)

Lemma packageManagerCount_cases tools :
  (1 <? packageManagerCount tools)%nat
  = yarnAvailable tools || (npmAvailable tools && pnpmAvailable tools).
Proof.
  unfold packageManagerCount. simpl.
  destruct (npmAvailable tools), (pnpmAvailable tools), (yarnAvailable tools);
    reflexivity.
Qed.

(** X5: in a session that is not aborted, the package manager is asked about
    exactly when neither its flag nor the recommended-defaults flag is given
    and yarn is available (it counts for two registry entries) or npm and
    pnpm both are; when it is not asked about, the flag decides, and npm is
    taken in the absence of a flag. *)
Theorem package_manager_question host argv initMode tools cfg :
  outcome (resolveOptions host argv initMode tools) = Returned cfg ->
  (In (EPrompt "packageManager")
     (trace (resolveOptions host argv initMode tools))
   <-> InitOptions.packageManager argv = None
       /\ InitOptions.yes argv = None
       /\ (yarnAvailable tools = true
           \/ (npmAvailable tools = true /\ pnpmAvailable tools = true)))
  /\ (~ In (EPrompt "packageManager")
          (trace (resolveOptions host argv initMode tools)) ->
      packageManager cfg
      = match InitOptions.packageManager argv with
        | Some m => m
        | None => PackageManager.NPM
        end).
Proof.
  intros Hret. apply resolveOptions_Returned in Hret.
  destruct Hret as (-> & -> & _ & _).
  assert (Hasked :
            In (EPrompt "packageManager") (questions argv initMode tools)
            <-> askPackageManager argv tools = true).
  { rewrite questions_In. split.
    - intros H.
      repeat match type of H with
             | _ \/ _ => destruct H as [H | H]
             end; destruct H as [Hn Hb]; try discriminate Hn; exact Hb.
    - intros H. do 5 right. auto. }
  split.
  - rewrite Hasked. unfold askPackageManager.
    rewrite packageManagerCount_cases.
    destruct (InitOptions.packageManager argv), (InitOptions.yes argv),
      (yarnAvailable tools), (npmAvailable tools), (pnpmAvailable tools);
      simpl; split; intros H; try discriminate H; try reflexivity;
      try (destruct H as (H1 & H2 & H3); try discriminate H1;
           try discriminate H2;
           destruct H3 as [H3 | [H3 H4]];
           try discriminate H3; try discriminate H4);
      repeat split; auto.
  - intros Hn. rewrite Hasked in Hn.
    unfold destructure, collected, defaultPackageManager. simpl.
    destruct (askPackageManager argv tools); [exfalso; auto |].
    simpl. destruct (InitOptions.packageManager argv); reflexivity.
Qed.

Lemma package_manager_question_witness :
  outcome (resolveOptions (Sample.mk Sample.onlyYarn Sample.emptyCwd)
             Sample.noFlags InitMode.Game
             (toolAvailability (Sample.mk Sample.onlyYarn Sample.emptyCwd)))
  = Returned
      (Sample.config InitMode.Game true true true true PackageManager.Yarn)
  /\ In (EPrompt "packageManager")
       (trace (resolveOptions (Sample.mk Sample.onlyYarn Sample.emptyCwd)
                 Sample.noFlags InitMode.Game
                 (toolAvailability
                    (Sample.mk Sample.onlyYarn Sample.emptyCwd)))).
Proof.
  split; [reflexivity |].
  apply (proj1 (package_manager_question
                  (Sample.mk Sample.onlyYarn Sample.emptyCwd)
                  Sample.noFlags InitMode.Game
                  (toolAvailability
                     (Sample.mk Sample.onlyYarn Sample.emptyCwd))
                  _ eq_refl)).
  repeat split. left. reflexivity.
Defined.

(** X6: version control is enabled only when git is available or the git
    flag forces it on; when git is unavailable it is not asked about, and
    the flag alone decides. *)
Theorem git_needs_tool_or_flag host argv initMode tools cfg :
  outcome (resolveOptions host argv initMode tools) = Returned cfg ->
  (git cfg = true ->
   InitOptions.git argv = Some true \/ gitAvailable tools = true)
  /\ (gitAvailable tools = false ->
      ~ In (EPrompt "git") (trace (resolveOptions host argv initMode tools))
      /\ git cfg = nullish_or (InitOptions.git argv) false).
Proof.
  intros Hret. apply resolveOptions_Returned in Hret.
  destruct Hret as (-> & -> & _ & _).
  assert (Hgit :
            git (destructure argv initMode tools
                   (collected host argv initMode tools))
            = match InitOptions.git argv with
              | Some b => b
              | None =>
                  match InitOptions.yes argv with
                  | Some _ => toggleDefault argv tools ToggleGit
                  | None =>
                      if gitAvailable tools
                      then nullish_or
                             (answered true (replyConfirm host "git"))
                             (toggleDefault argv tools ToggleGit)
                      else toggleDefault argv tools ToggleGit
                  end
              end).
  { exact (toggle_resolved host argv initMode tools ToggleGit). }
  split.
  - rewrite Hgit. unfold toggleDefault.
    destruct (InitOptions.git argv) as [[|] |]; auto; try discriminate.
    destruct (gitAvailable tools); auto.
    destruct (InitOptions.yes argv) as [[|] |]; simpl; discriminate.
  - intros Hg. split.
    + intros Hin. apply (toggle_asked argv initMode tools ToggleGit) in Hin.
      destruct Hin as (_ & _ & Hav). rewrite Hg in Hav.
      specialize (Hav eq_refl). discriminate Hav.
    + rewrite Hgit. unfold toggleDefault. rewrite Hg.
      destruct (InitOptions.git argv), (InitOptions.yes argv) as [[|] |];
        reflexivity.
Qed.

Lemma git_needs_tool_or_flag_witness :
  outcome (resolveOptions (Sample.mk Sample.noGit Sample.emptyCwd)
             Sample.noFlags InitMode.Game
             (toolAvailability (Sample.mk Sample.noGit Sample.emptyCwd)))
  = Returned
      (Sample.config InitMode.Game false true true true PackageManager.NPM)
  /\ gitAvailable (toolAvailability (Sample.mk Sample.noGit Sample.emptyCwd))
     = false
  /\ ~ In (EPrompt "git")
         (trace (resolveOptions (Sample.mk Sample.noGit Sample.emptyCwd)
                   Sample.noFlags InitMode.Game
                   (toolAvailability
                      (Sample.mk Sample.noGit Sample.emptyCwd)))).
Proof.
  split; [reflexivity |]. split; [reflexivity |].
  apply (proj2 (git_needs_tool_or_flag
                  (Sample.mk Sample.noGit Sample.emptyCwd)
                  Sample.noFlags InitMode.Game
                  (toolAvailability (Sample.mk Sample.noGit Sample.emptyCwd))
                  _ eq_refl)).
  reflexivity.
Defined.

Lemma subcommandMode_cases name mode :
  subcommandMode name = Some mode ->
  In mode templateChoices /\ askTemplate mode = false.
Proof.
  unfold subcommandMode, subcommands.
  cbn [find existsb fst InitMode.value].
  repeat match goal with
         | |- context [String.eqb ?a name] => destruct (String.eqb a name)
         end;
    cbn [orb find existsb fst snd option_map InitMode.value];
    intros H; try discriminate H;
    injection H as <-; split; simpl; auto 6.
Qed.

(** X7: for the bare command and for every registered sub-command, a session
    that is not aborted resolves the template to one of game, model, plugin
    and package (never to none or place); the template is asked about
    exactly for the bare command, and a sub-command fixes it to its own
    mode, [place] being an alias of game. *)
Theorem template_from_command host argv sub mode tools cfg :
  entryMode sub = Some mode ->
  outcome (resolveOptions host argv mode tools) = Returned cfg ->
  In (template cfg) templateChoices
  /\ (In (EPrompt "template") (trace (resolveOptions host argv mode tools))
      <-> sub = None)
  /\ (sub <> None -> template cfg = mode)
  /\ entryMode (Some "place") = Some InitMode.Game.
Proof.
  intros Hentry Hret.
  pose proof (resolveOptions_outcome host argv mode tools) as Hout.
  rewrite Hret in Hout.
  destruct (cancelled host argv mode tools) eqn:Hc; [discriminate Hout |].
  injection Hout as ->.
  destruct (resolveOptions_Returned _ _ _ _ _ Hret) as (_ & -> & _).
  assert (Hasked :
            In (EPrompt "template") (questions argv mode tools)
            <-> askTemplate mode = true).
  { rewrite questions_In. split.
    - intros H.
      repeat match type of H with
             | _ \/ _ => destruct H as [H | H]
             end; destruct H as [Hn Hb]; try discriminate Hn; exact Hb.
    - intros H. left. auto. }
  rewrite Hasked.
  unfold destructure, collected. simpl template.
  destruct sub as [name |]; simpl in Hentry.
  - destruct (subcommandMode_cases name mode Hentry) as [Hin Hask].
    rewrite Hask. simpl.
    repeat split; try discriminate; auto.
  - injection Hentry as <-. simpl askTemplate.
    unfold cancelled in Hc.
    repeat (apply orb_false_iff in Hc; destruct Hc as [Hc _]).
    unfold aborts in Hc. simpl in Hc.
    destruct (replySelect host "template") as [c |]; [| discriminate Hc].
    destruct (chosen_Some templateChoices c) as [x Hx]; [discriminate |].
    unfold answered. rewrite Hx. simpl nullish_or.
    repeat split; auto.
    + apply (chosen_In templateChoices c x Hx).
    + intros H. exfalso. apply H. reflexivity.
Qed.

Lemma template_from_command_witness :
  entryMode (Some "place") = Some InitMode.Game
  /\ outcome (resolveOptions Sample.quiet (Sample.withYes true) InitMode.Game
                (toolAvailability Sample.quiet))
     = Returned
         (Sample.config InitMode.Game true true true true PackageManager.NPM)
  /\ In (template
           (Sample.config InitMode.Game true true true true
              PackageManager.NPM))
       templateChoices.
Proof.
  split; [reflexivity |]. split; [reflexivity |].
  apply (template_from_command Sample.quiet (Sample.withYes true)
           (Some "place") InitMode.Game (toolAvailability Sample.quiet)
           _ eq_refl eq_refl).
Defined.

(** ** The order of the steps *)

Lemma labels_app t1 t2 : labels (t1 ++ t2) = (labels t1 ++ labels t2)%list.
Proof. unfold labels. apply flat_map_app. Qed.

Lemma labels_quiet t :
  Forall (fun e => startsStep e = false) t -> labels t = [].
Proof.
  induction 1 as [| e t He _ IH]; [reflexivity |].
  simpl. rewrite IH. destruct e; try reflexivity. discriminate He.
Qed.

Lemma trace_benchmark {A : Type} name (callback : M A) :
  trace (benchmark name callback) = EBenchmark name :: trace callback.
Proof. destruct callback as [t [a | e | c]]; reflexivity. Qed.

Lemma benchmark_labels {A : Type} name (callback : M A) :
  Forall (fun e => startsStep e = false) (trace callback) ->
  labels (trace (benchmark name callback)) = [name].
Proof.
  intros H. rewrite trace_benchmark. simpl. rewrite (labels_quiet _ H).
  reflexivity.
Qed.

Lemma when_labels b step name :
  labels (trace step) = [name] ->
  labels (trace (when b step)) = if b then [name] else [].
Proof. destruct b; simpl; [intros H; exact H | reflexivity]. Qed.

Ltac step_labels :=
  apply benchmark_labels;
  unfold cmd, fs_readJson, fs_readFile, fs_copy, fs_outputFile, fs_writeFile,
    fs_remove, guarded, rewriteManifest, packageFields;
  repeat silent_step.

Lemma initializePackageJson_labels host cfg :
  labels (trace (initializePackageJson host cfg))
  = ["Initializing package.json.."].
Proof. unfold initializePackageJson. step_labels. Qed.

Lemma initializeGit_labels host :
  labels (trace (initializeGit host)) = ["Initializing Git.."].
Proof. unfold initializeGit. step_labels. Qed.

Lemma installDependencies_labels host cfg :
  labels (trace (installDependencies host cfg)) = ["Installing dependencies.."].
Proof. unfold installDependencies. step_labels. Qed.

Lemma setupYarn3_labels host :
  labels (trace (setupYarn3 host)) = ["Setting up yarn v3.."].
Proof. unfold setupYarn3. step_labels. Qed.

Lemma configureEslint_labels host cfg :
  labels (trace (configureEslint host cfg)) = ["Configuring ESLint.."].
Proof. unfold configureEslint. step_labels. Qed.

Lemma configurePrettier_labels host :
  labels (trace (configurePrettier host)) = ["Configuring prettier.."].
Proof. unfold configurePrettier. step_labels. Qed.

Lemma configureVscode_labels host cfg :
  labels (trace (configureVscode host cfg)) = ["Configuring vscode.."].
Proof. unfold configureVscode. step_labels. Qed.

Lemma copyTemplate_labels host cfg :
  labels (trace (copyTemplate host cfg)) = ["Copying template files.."].
Proof. unfold copyTemplate. step_labels. Qed.

Lemma compile_labels host : labels (trace (compile host)) = ["Compiling.."].
Proof.
  unfold compile, benchmark, cmd.
  destruct (exec host "npm run build"); reflexivity.
Qed.

Lemma bind_labels_prefix {A B : Type} (m : M A) (f : A -> M B) L1 L2 :
  labels (trace m) = L1 ->
  (forall a, exists rest, L2 = (labels (trace (f a)) ++ rest)%list) ->
  exists rest, (L1 ++ L2)%list = (labels (trace (bind m f)) ++ rest)%list.
Proof.
  intros H1 H2. destruct m as [t [a | e | c]]; simpl in *.
  - destruct (H2 a) as [rest Hrest].
    destruct (f a) as [t' r]; simpl in *.
    exists rest. rewrite labels_app, H1, Hrest, app_assoc. reflexivity.
  - exists L2. rewrite H1. reflexivity.
  - exists L2. rewrite H1. reflexivity.
Qed.

(** X8: the steps a run of the pipeline starts are, in order, an initial
    part of the steps its configuration enables (manifest, git if enabled,
    dependencies, yarn v3 setup for that manager only, ESLint, prettier and
    editor settings if enabled, template copy, build): a disabled step never
    starts, no step starts twice or out of order, and after a failure no
    further step starts.  A pipeline that completes has started them all. *)
Theorem steps_in_order host cfg :
  (exists rest,
     plannedSteps cfg = (labels (trace (pipeline host cfg)) ++ rest)%list)
  /\ (outcome (pipeline host cfg) = Returned tt ->
      labels (trace (pipeline host cfg)) = plannedSteps cfg).
Proof.
  split.
  - unfold pipeline, plannedSteps.
    apply bind_labels_prefix;
      [apply initializePackageJson_labels | intros _].
    apply bind_labels_prefix;
      [apply when_labels, initializeGit_labels | intros _].
    apply bind_labels_prefix;
      [apply installDependencies_labels | intros _].
    apply bind_labels_prefix;
      [apply when_labels, setupYarn3_labels | intros _].
    apply bind_labels_prefix;
      [apply when_labels, configureEslint_labels | intros _].
    apply bind_labels_prefix;
      [apply when_labels, configurePrettier_labels | intros _].
    apply bind_labels_prefix;
      [apply when_labels, configureVscode_labels | intros _].
    change ["Copying template files.."; "Compiling.."]
      with (["Copying template files.."] ++ ["Compiling.."])%list.
    apply bind_labels_prefix; [apply copyTemplate_labels | intros _].
    exists []. rewrite compile_labels. reflexivity.
  - intros Hret. destruct (pipeline_Returned host cfg Hret) as (-> & _ & _).
    rewrite !labels_app.
    rewrite initializePackageJson_labels, installDependencies_labels,
      copyTemplate_labels, compile_labels.
    rewrite (when_labels _ _ _ (initializeGit_labels host)),
      (when_labels _ _ _ (setupYarn3_labels host)),
      (when_labels _ _ _ (configureEslint_labels host cfg)),
      (when_labels _ _ _ (configurePrettier_labels host)),
      (when_labels _ _ _ (configureVscode_labels host cfg)).
    reflexivity.
Qed.

Lemma steps_in_order_witness :
  outcome
    (pipeline Sample.quiet
       (Sample.config InitMode.Plugin false true false true
          PackageManager.Yarn3))
  = Returned tt
  /\ labels
       (trace
          (pipeline Sample.quiet
             (Sample.config InitMode.Plugin false true false true
                PackageManager.Yarn3)))
     = ["Initializing package.json.."; "Installing dependencies..";
        "Setting up yarn v3.."; "Configuring ESLint..";
        "Configuring vscode.."; "Copying template files.."; "Compiling.."].
Proof.
  split; [reflexivity |].
  apply (proj2 (steps_in_order Sample.quiet
                  (Sample.config InitMode.Plugin false true false true
                     PackageManager.Yarn3))).
  reflexivity.
Defined.

(** ** What a disabled feature leaves alone *)




(** ** Failing commands *)

(** X10: when the manifest-init command of the chosen package manager fails,
    the pipeline stops there: it has run that one command, read and written
    nothing, and throws the error that quotes the command, its exit code
    and the original message. *)
Theorem failed_manifest_init host cfg error :
  exec host
    (PackageManagerCommands.init (packageManagerCommands (packageManager cfg)))
  = ExecError error ->
  pipeline host cfg
  = ([EBenchmark "Initializing package.json..";
      ECmd (PackageManagerCommands.init
              (packageManagerCommands (packageManager cfg)))],
     Thrown (commandFailure error)).
Proof.
  intros Hexec.
  unfold pipeline, initializePackageJson, benchmark, cmd. cbv zeta.
  rewrite Hexec. reflexivity.
Qed.

Lemma failed_manifest_init_witness :
  pipeline (Sample.withExec Sample.quiet (Sample.failingOn "pnpm init"))
    (Sample.config InitMode.Game true true true true PackageManager.PNPM)
  = ([EBenchmark "Initializing package.json.."; ECmd "pnpm init"],
     Thrown
       {| message :=
            "Command " ++ dquote ++ "pnpm init" ++ dquote
            ++ " exited with code 1" ++ newline ++ newline
            ++ "Command failed: pnpm init" |}).
Proof.
  apply (failed_manifest_init
           (Sample.withExec Sample.quiet (Sample.failingOn "pnpm init"))
           (Sample.config InitMode.Game true true true true
              PackageManager.PNPM)
           {| exc_cmd := "pnpm init"; exc_code := "1";
              exc_message := "Command failed: pnpm init" |}).
  reflexivity.
Defined.

(** X11: when version control is enabled, the manifest step has completed
    and [git init] fails, the pipeline throws the command's error followed
    by the hint that git may be missing; neither git file is copied and no
    later step starts, and what the manifest step did stays done. *)
Theorem failed_git_init host cfg error :
  git cfg = true ->
  outcome (initializePackageJson host cfg) = Returned tt ->
  exec host "git init" = ExecError error ->
  outcome (pipeline host cfg)
  = Thrown {| message := message (commandFailure error) ++ newline ++ gitHint |}
  /\ trace (pipeline host cfg)
     = (trace (initializePackageJson host cfg)
        ++ [EBenchmark "Initializing Git.."; ECmd "git init"])%list.
Proof.
  intros Hgit Hmanifest Hexec.
  assert (Hstep :
            initializeGit host
            = ([EBenchmark "Initializing Git.."; ECmd "git init"],
               Thrown {| message :=
                           message (commandFailure error) ++ newline
                           ++ gitHint |})).
  { unfold initializeGit, benchmark, cmd, try_catch.
    rewrite Hexec. reflexivity. }
  unfold pipeline. rewrite Hgit. cbn [when].
  destruct (bind_Returned (initializePackageJson host cfg)
              (fun _ =>
                 initializeGit host;;
                 installDependencies host cfg;;
                 when (PackageManager.eqb (packageManager cfg)
                         PackageManager.Yarn3) (setupYarn3 host);;
                 when (eslint cfg) (configureEslint host cfg);;
                 when (prettier cfg) (configurePrettier host);;
                 when (vscode cfg) (configureVscode host cfg);;
                 copyTemplate host cfg;; compile host)
              tt Hmanifest) as [Htrace Hout].
  rewrite Htrace, Hout, Hstep. split; reflexivity.
Qed.

Lemma failed_git_init_witness :
  outcome
    (pipeline (Sample.withExec Sample.quiet (Sample.failingOn "git init"))
       (Sample.config InitMode.Game true false false false
          PackageManager.NPM))
  = Thrown
      {| message :=
           "Command " ++ dquote ++ "git init" ++ dquote
           ++ " exited with code 1" ++ newline ++ newline
           ++ "Command failed: git init" ++ newline ++ gitHint |}
  /\ trace
       (pipeline (Sample.withExec Sample.quiet (Sample.failingOn "git init"))
          (Sample.config InitMode.Game true false false false
             PackageManager.NPM))
     = (trace
          (initializePackageJson
             (Sample.withExec Sample.quiet (Sample.failingOn "git init"))
             (Sample.config InitMode.Game true false false false
                PackageManager.NPM))
        ++ [EBenchmark "Initializing Git.."; ECmd "git init"])%list.
Proof.
  apply (failed_git_init
           (Sample.withExec Sample.quiet (Sample.failingOn "git init"))
           (Sample.config InitMode.Game true false false false
              PackageManager.NPM)
           {| exc_cmd := "git init"; exc_code := "1";
              exc_message := "Command failed: git init" |});
    reflexivity.
Defined.

Lemma failStop_quiet host {A : Type} (m : M A) :
  Forall (fun e => refused host e = false) (trace m) -> failStop host m.
Proof.
  intros Hq t1 e t2 Htrace Hr. rewrite Htrace in Hq.
  apply Forall_app in Hq. destruct Hq as [_ Hq].
  inversion Hq as [| ? ? He _]. congruence.
Qed.

Lemma failStop_single host {A : Type} (m : M A) e0 :
  trace m = [e0] ->
  (refused host e0 = true -> exists err, outcome m = Thrown err) ->
  failStop host m.
Proof.
  intros Htrace Hfail t1 e t2 Hsplit Hr. rewrite Htrace in Hsplit.
  destruct t1 as [| x t1].
  - injection Hsplit as <- <-. split; [reflexivity | exact (Hfail Hr)].
  - destruct t1; discriminate Hsplit.
Qed.

Lemma failStop_bind host {A B : Type} (m : M A) (f : A -> M B) :
  failStop host m ->
  (forall a, outcome m = Returned a -> failStop host (f a)) ->
  failStop host (bind m f).
Proof.
  intros Hm Hf t1 e t2.
  destruct m as [t [a | err | c]].
  - specialize (Hf a eq_refl). unfold bind.
    destruct (f a) as [t' r]. unfold trace, outcome. cbn [fst snd].
    intros Hsplit Hr.
    apply app_eq_app in Hsplit.
    destruct Hsplit as (l & [[Ht1 Ht'] | [Ht Ht']]).
    + destruct l as [| x l].
      * simpl in Ht'. rewrite app_nil_r in Ht1. subst t1.
        exact (Hf [] e t2 (eq_sym Ht') Hr).
      * injection Ht' as <- Ht'.
        destruct (Hm t1 e l Ht1 Hr) as (_ & err & Herr). discriminate Herr.
    + exact (Hf l e t2 Ht' Hr).
  - intros Hsplit Hr. destruct (Hm t1 e t2 Hsplit Hr) as [Ht2 _].
    split; [exact Ht2 | exists err; reflexivity].
  - intros Hsplit Hr. destruct (Hm t1 e t2 Hsplit Hr) as (_ & err & Herr).
    discriminate Herr.
Qed.

Lemma failStop_rethrow host {A : Type} (m : M A) (g : Error -> Error) :
  failStop host m -> failStop host (try_catch m (fun err => throw (g err))).
Proof.
  intros Hm t1 e t2.
  destruct m as [t [a | err | c]];
    try (intros Hsplit Hr; exact (Hm t1 e t2 Hsplit Hr)).
  unfold try_catch, throw, trace, outcome. cbn [fst snd].
  rewrite app_nil_r. intros Hsplit Hr.
  destruct (Hm t1 e t2 Hsplit Hr) as [Ht2 _].
  split; [exact Ht2 | eexists; reflexivity].
Qed.

Lemma failStop_cmd host c : failStop host (cmd host c).
Proof.
  apply (failStop_single host _ (ECmd c)); unfold cmd; simpl;
    destruct (exec host c); try reflexivity; intros H;
    [discriminate H | eexists; reflexivity].
Qed.

Lemma failStop_guarded host e :
  writesFile e = true -> failStop host (guarded host e).
Proof.
  intros Hw. apply (failStop_single host _ e); unfold guarded; simpl.
  - destruct (fsFault host e); reflexivity.
  - destruct e; try discriminate Hw; simpl;
      match goal with
      | |- context [fsFault host ?ev] => destruct (fsFault host ev)
      end; intros H; try discriminate H; eexists; reflexivity.
Qed.

Lemma failStop_readJson host p : failStop host (fs_readJson host p).
Proof.
  apply (failStop_single host _ (EReadJson p)); unfold fs_readJson; simpl;
    destruct (readJson host p); try reflexivity; intros H;
    [discriminate H | eexists; reflexivity].
Qed.

Lemma failStop_readFile host p : failStop host (fs_readFile host p).
Proof.
  apply (failStop_single host _ (EReadFile p)); unfold fs_readFile; simpl;
    destruct (readFile host p); try reflexivity; intros H;
    [discriminate H | eexists; reflexivity].
Qed.

Ltac failstop_step host :=
  match goal with
  | |- failStop _ (bind _ _) => apply failStop_bind; [| intros ? _]
  | |- failStop _ (try_catch _ _) => apply failStop_rethrow
  | |- failStop _ (cmd _ _) => apply failStop_cmd
  | |- failStop _ (guarded _ _) => apply failStop_guarded; reflexivity
  | |- failStop _ (fs_readJson _ _) => apply failStop_readJson
  | |- failStop _ (fs_readFile _ _) => apply failStop_readFile
  | |- failStop _ (if ?b then _ else _) => destruct b
  | |- failStop _ (match ?x with _ => _ end) => destruct x
  | |- failStop _ _ => apply failStop_quiet; repeat silent_step
  end.

(** X12: in every run of the pipeline a failing operation (a command that
    exits with an error, a refused write, copy or removal, a rejected read)
    is the last thing the run does, and the run throws: nothing is retried
    and nothing runs after a failure. *)
Theorem failure_ends_pipeline host cfg t1 e t2 :
  trace (pipeline host cfg) = (t1 ++ e :: t2)%list ->
  refused host e = true ->
  t2 = [] /\ exists err, outcome (pipeline host cfg) = Thrown err.
Proof.
  revert t1 e t2. change (failStop host (pipeline host cfg)).
  unfold pipeline, when, initializePackageJson, initializeGit,
    installDependencies, setupYarn3, configureEslint, configurePrettier,
    configureVscode, copyTemplate, compile, benchmark, fs_copy,
    fs_outputFile, fs_writeFile, fs_remove, rewriteManifest, packageFields.
  repeat failstop_step host.
Qed.

Lemma failure_ends_pipeline_witness :
  refused (Sample.withExec Sample.quiet (Sample.failingOn "git init"))
    (ECmd "git init") = true
  /\ trace
       (pipeline (Sample.withExec Sample.quiet (Sample.failingOn "git init"))
          (Sample.config InitMode.Game true true true true PackageManager.NPM))
     = (firstn 5
          (trace
             (pipeline
                (Sample.withExec Sample.quiet (Sample.failingOn "git init"))
                (Sample.config InitMode.Game true true true true
                   PackageManager.NPM)))
        ++ ECmd "git init" :: [])%list
  /\ exists err,
       outcome
         (pipeline (Sample.withExec Sample.quiet (Sample.failingOn "git init"))
            (Sample.config InitMode.Game true true true true
               PackageManager.NPM))
       = Thrown err.
Proof.
  split; [reflexivity |]. split; [reflexivity |].
  apply (failure_ends_pipeline
           (Sample.withExec Sample.quiet (Sample.failingOn "git init"))
           (Sample.config InitMode.Game true true true true PackageManager.NPM)
           (firstn 5
              (trace
                 (pipeline
                    (Sample.withExec Sample.quiet
                       (Sample.failingOn "git init"))
                    (Sample.config InitMode.Game true true true true
                       PackageManager.NPM))))
           (ECmd "git init") []);
    reflexivity.
Defined.

(** ** Dependencies *)

(** X13: the packages installed are exactly the three base packages, then
    [prettier] when the formatter is enabled, then, when the linter is
    enabled, [eslint], its TypeScript parser and the roblox-ts plugin and,
    when the formatter is enabled too, [eslint-plugin-prettier]; no package
    is listed twice; and the step runs one command, the silent dev-install
    command of the chosen manager followed by these names, each after a
    space. *)
Theorem devDependencies_content host cfg :
  devDependencies cfg
  = (["@rbxts/types"; "@rbxts/compiler-types@compiler-2.1.0"; "typescript"]
     ++ (if prettier cfg then ["prettier"] else [])
     ++ (if eslint cfg
         then ["eslint"; "@typescript-eslint/parser";
               "eslint-plugin-roblox-ts"]
              ++ (if prettier cfg then ["eslint-plugin-prettier"] else [])
         else []))%list
  /\ NoDup (devDependencies cfg)
  /\ trace (installDependencies host cfg)
     = [EBenchmark "Installing dependencies..";
        ECmd (PackageManagerCommands.devInstall
                (packageManagerCommands (packageManager cfg))
              ++ " @rbxts/types @rbxts/compiler-types@compiler-2.1.0 typescript"
              ++ (if prettier cfg then " prettier" else "")
              ++ (if eslint cfg
                  then " eslint @typescript-eslint/parser eslint-plugin-roblox-ts"
                       ++ (if prettier cfg then " eslint-plugin-prettier"
                           else "")
                  else ""))].
Proof.
  split; [| split].
  - unfold devDependencies. destruct (prettier cfg), (eslint cfg); reflexivity.
  - unfold devDependencies.
    destruct (prettier cfg), (eslint cfg); simpl;
      repeat (constructor;
              [simpl; intros H;
               repeat match type of H with
                      | _ \/ _ => destruct H as [H | H]
                      end; try discriminate H; exact H |]);
      constructor.
  - unfold installDependencies, benchmark, cmd, devDependencies. cbv zeta.
    destruct (exec host _);
      destruct (prettier cfg), (eslint cfg), (packageManager cfg);
      reflexivity.
Qed.

Lemma devDependencies_content_witness :
  devDependencies
    (Sample.config InitMode.Game true true false true PackageManager.PNPM)
  = ["@rbxts/types"; "@rbxts/compiler-types@compiler-2.1.0"; "typescript";
     "eslint"; "@typescript-eslint/parser"; "eslint-plugin-roblox-ts"]
  /\ trace
       (installDependencies Sample.quiet
          (Sample.config InitMode.Game true true false true
             PackageManager.PNPM))
     = [EBenchmark "Installing dependencies..";
        ECmd "pnpm install --silent -D @rbxts/types @rbxts/compiler-types@compiler-2.1.0 typescript eslint @typescript-eslint/parser eslint-plugin-roblox-ts"].
Proof.
  destruct (devDependencies_content Sample.quiet
              (Sample.config InitMode.Game true true false true
                 PackageManager.PNPM))
    as (Hlist & _ & Hcmd).
  split; [exact Hlist | exact Hcmd].
Defined.

(** ** Rewritten configuration files *)

Ltac split_fault host :=
  match goal with
  | |- context [fsFault host ?ev] => destruct (fsFault host ev)
  end.

(** X14: the yarn v3 step, when its command, the removal of [.yarnrc] and
    the read succeed and [.yarnrc.yml] parses to a mapping, leaves the file
    untouched if [nodeLinker] already is [node-modules]; otherwise it
    rewrites the file with [nodeLinker] set to [node-modules] and every
    other key as it was read. *)
Theorem yarn3_node_linker host stdout text props :
  exec host "yarn set verion latest" = ExecOk stdout ->
  fsFault host (ERemove (InCwd paths.yarnncOld)) = None ->
  readFile host (InCwd paths.yarnnc) = Fulfilled text ->
  YAML_parse host text = Fulfilled (JObj props) ->
  (getProp props "nodeLinker" = Some (JStr "node-modules") ->
   setupYarn3 host
   = ([EBenchmark "Setting up yarn v3.."; ECmd "yarn set verion latest";
       ERemove (InCwd paths.yarnncOld); EReadFile (InCwd paths.yarnnc)],
      Returned tt))
  /\ (getProp props "nodeLinker" <> Some (JStr "node-modules") ->
      exists written,
        trace (setupYarn3 host)
        = [EBenchmark "Setting up yarn v3.."; ECmd "yarn set verion latest";
           ERemove (InCwd paths.yarnncOld); EReadFile (InCwd paths.yarnnc);
           EWriteFile (InCwd paths.yarnnc) (YamlText (JObj written))]
        /\ getProp written "nodeLinker" = Some (JStr "node-modules")
        /\ forall k, k <> "nodeLinker" -> getProp written k = getProp props k).
Proof.
  intros Hexec Hremove Hread Hparse.
  unfold setupYarn3, benchmark, cmd, fs_remove, fs_readFile, fs_writeFile,
    guarded.
  rewrite Hexec, Hremove, Hread.
  cbn [bind emit ret await app]. rewrite Hparse.
  cbn [bind emit ret await app js_in member assign].
  split.
  - intros Hset. rewrite Hset. reflexivity.
  - intros Hother.
    exists (setProp props "nodeLinker" (JStr "node-modules")).
    split; [| split].
    + destruct (getProp props "nodeLinker") as [[| b | n | s | l | o] |] eqn:Hget;
        cbn [isUndefined negb orb notStrictlyEqual bind ret app];
        try (split_fault host; reflexivity).
      match goal with
      | |- context [String.eqb ?x "node-modules"] =>
          destruct (String.eqb_spec x "node-modules") as [-> | Hne]
      end.
      * exfalso. apply Hother. reflexivity.
      * cbn [negb bind ret app]. split_fault host; reflexivity.
    + apply getProp_setProp_same.
    + intros k Hk. apply getProp_setProp_other. exact Hk.
Qed.

Lemma yarn3_node_linker_witness :
  getProp [("yarnPath", JStr ".yarn/releases/yarn.cjs")] "nodeLinker"
  <> Some (JStr "node-modules")
  /\ trace
       (setupYarn3
          (Sample.withYaml Sample.quiet
             (JObj [("yarnPath", JStr ".yarn/releases/yarn.cjs")])))
     = [EBenchmark "Setting up yarn v3.."; ECmd "yarn set verion latest";
        ERemove (InCwd paths.yarnncOld); EReadFile (InCwd paths.yarnnc);
        EWriteFile (InCwd paths.yarnnc)
          (YamlText
             (JObj [("yarnPath", JStr ".yarn/releases/yarn.cjs");
                    ("nodeLinker", JStr "node-modules")]))]
  /\ exists written,
       getProp written "nodeLinker" = Some (JStr "node-modules")
       /\ getProp written "yarnPath"
          = Some (JStr ".yarn/releases/yarn.cjs").
Proof.
  split; [discriminate |]. split; [reflexivity |].
  destruct (yarn3_node_linker
              (Sample.withYaml Sample.quiet
                 (JObj [("yarnPath", JStr ".yarn/releases/yarn.cjs")]))
              "" "" [("yarnPath", JStr ".yarn/releases/yarn.cjs")]
              eq_refl eq_refl eq_refl eq_refl)
    as [_ Hwrite].
  destruct Hwrite as (written & _ & Hlinker & Hkeep); [discriminate |].
  exists written. split; [exact Hlinker |].
  rewrite (Hkeep "yarnPath"); [reflexivity | discriminate].
Defined.

(** X15: when the linter is configured together with the formatter and the
    copied [.eslintrc.yml] parses to a mapping, the file is rewritten with
    [extends] set to [prettier] (replacing any earlier value) and every
    other key as it was read; without the formatter the step only copies
    the two linter files. *)
Theorem eslint_extends_prettier host cfg :
  (prettier cfg = true ->
   forall text props,
     fsFault host (ECopy configTemplate.eslintrc (InCwd paths.eslintrc))
     = None ->
     fsFault host
       (ECopy configTemplate.eslintrcIgnore (InCwd paths.eslintrcIgnore))
     = None ->
     readFile host (InCwd paths.eslintrc) = Fulfilled text ->
     YAML_parse host text = Fulfilled (JObj props) ->
     exists written,
       trace (configureEslint host cfg)
       = [EBenchmark "Configuring ESLint..";
          ECopy configTemplate.eslintrc (InCwd paths.eslintrc);
          ECopy configTemplate.eslintrcIgnore (InCwd paths.eslintrcIgnore);
          EReadFile (InCwd paths.eslintrc);
          EWriteFile (InCwd paths.eslintrc) (YamlText (JObj written))]
       /\ getProp written "extends" = Some (JStr "prettier")
       /\ forall k, k <> "extends" -> getProp written k = getProp props k)
  /\ (prettier cfg = false ->
      forall e,
        In e (trace (configureEslint host cfg)) ->
        In e [EBenchmark "Configuring ESLint..";
              ECopy configTemplate.eslintrc (InCwd paths.eslintrc);
              ECopy configTemplate.eslintrcIgnore
                (InCwd paths.eslintrcIgnore)]).
Proof.
  unfold configureEslint, benchmark, fs_copy, fs_readFile, fs_writeFile,
    guarded.
  split.
  - intros -> text props Hc1 Hc2 Hread Hparse.
    rewrite Hc1, Hc2, Hread.
    cbn [bind emit ret await app]. rewrite Hparse.
    cbn [bind emit ret await app assign].
    exists (setProp props "extends" (JStr "prettier")).
    split; [| split].
    + split_fault host; reflexivity.
    + apply getProp_setProp_same.
    + intros k Hk. apply getProp_setProp_other. exact Hk.
  - intros -> e.
    repeat match goal with
           | |- context [fsFault host ?ev] => destruct (fsFault host ev)
           end; simpl; tauto.
Qed.

Lemma eslint_extends_prettier_witness :
  prettier (Sample.config InitMode.Game true true true true PackageManager.NPM)
  = true
  /\ In (EWriteFile (InCwd paths.eslintrc)
          (YamlText
             (JObj [("parser", JStr "@typescript-eslint/parser");
                    ("extends", JStr "prettier")])))
       (trace
          (configureEslint
             (Sample.withYaml Sample.quiet
                (JObj [("parser", JStr "@typescript-eslint/parser");
                       ("extends", JArr [JStr "eslint:recommended"])]))
             (Sample.config InitMode.Game true true true true
                PackageManager.NPM)))
  /\ exists written,
       getProp written "extends" = Some (JStr "prettier")
       /\ getProp written "parser" = Some (JStr "@typescript-eslint/parser").
Proof.
  split; [reflexivity |]. split; [vm_compute; tauto |].
  destruct (proj1 (eslint_extends_prettier
                     (Sample.withYaml Sample.quiet
                        (JObj [("parser", JStr "@typescript-eslint/parser");
                               ("extends",
                                JArr [JStr "eslint:recommended"])]))
                     (Sample.config InitMode.Game true true true true
                        PackageManager.NPM))
              eq_refl ""
              [("parser", JStr "@typescript-eslint/parser");
               ("extends", JArr [JStr "eslint:recommended"])]
              eq_refl eq_refl eq_refl eq_refl)
    as (written & _ & Hext & Hkeep).
  exists written. split; [exact Hext |].
  rewrite (Hkeep "parser"); [reflexivity | discriminate].
Defined.

(** ** Editor files *)

(** X16: the recommended extensions start with the roblox-ts extension and
    hold the linter's extension exactly when the linter is enabled, the
    formatter's exactly when the formatter is enabled (also beside the
    linter), and the zip file-system extension exactly for yarn v3, none
    twice; the yarn SDK command runs exactly for yarn v3; and the
    extensions file the step writes lists exactly these. *)
Theorem vscode_recommendations host cfg :
  hd_error (vscodeRecommendations cfg) = Some "roblox-ts.vscode-roblox-ts"
  /\ (In "dbaeumer.vscode-eslint" (vscodeRecommendations cfg)
      <-> eslint cfg = true)
  /\ (In "esbenp.prettier-vscode" (vscodeRecommendations cfg)
      <-> prettier cfg = true)
  /\ (In "arcanis.vscode-zipfs" (vscodeRecommendations cfg)
      <-> packageManager cfg = PackageManager.Yarn3)
  /\ NoDup (vscodeRecommendations cfg)
  /\ (In (ECmd "yarn dlx @yarnpkg/sdks vscode")
        (trace (configureVscode host cfg))
      <-> packageManager cfg = PackageManager.Yarn3)
  /\ (forall c,
        In (EOutputFile (InCwd paths.extensions) c)
          (trace (configureVscode host cfg)) ->
        c = JsonText
              (JObj [("recommendations",
                      JArr (map JStr (vscodeRecommendations cfg)))])
              tab).
Proof.
  assert (Hin : forall (x : string) l, In x l <-> existsb (String.eqb x) l = true).
  { intros x l. rewrite existsb_exists. split.
    - intros H. exists x. split; [exact H | apply String.eqb_refl].
    - intros (y & Hy & Heq). apply String.eqb_eq in Heq. subst y. exact Hy. }
  split; [| split; [| split; [| split; [| split; [| split]]]]].
  - unfold vscodeRecommendations.
    destruct (eslint cfg), (prettier cfg), (packageManager cfg); reflexivity.
  - rewrite Hin. unfold vscodeRecommendations.
    destruct (eslint cfg), (prettier cfg), (packageManager cfg); simpl;
      split; intros H; try reflexivity; discriminate H.
  - rewrite Hin. unfold vscodeRecommendations.
    destruct (eslint cfg), (prettier cfg), (packageManager cfg); simpl;
      split; intros H; try reflexivity; discriminate H.
  - rewrite Hin. unfold vscodeRecommendations.
    destruct (eslint cfg), (prettier cfg), (packageManager cfg); simpl;
      split; intros H; try reflexivity; discriminate H.
  - unfold vscodeRecommendations.
    destruct (eslint cfg), (prettier cfg), (packageManager cfg); simpl;
      repeat (constructor;
              [simpl; intros H;
               repeat match type of H with
                      | _ \/ _ => destruct H as [H | H]
                      end; try discriminate H; exact H |]);
      constructor.
  - unfold configureVscode, benchmark, cmd, fs_outputFile, guarded.
    destruct (packageManager cfg); cbn [PackageManager.eqb];
      try destruct (exec host "yarn dlx @yarnpkg/sdks vscode");
      cbn [bind emit ret throw app];
      repeat split_fault host;
      cbn [bind emit ret throw app trace fst]; simpl;
      split; intros H; try reflexivity; try discriminate H;
      repeat match type of H with
             | _ \/ _ => destruct H as [H | H]
             end; try discriminate H; try contradiction; tauto.
  - intros c.
    unfold configureVscode, benchmark, cmd, fs_outputFile, guarded.
    destruct (PackageManager.eqb (packageManager cfg) PackageManager.Yarn3);
      [destruct (exec host "yarn dlx @yarnpkg/sdks vscode") |];
      cbn [bind emit ret throw app];
      repeat split_fault host;
      cbn [bind emit ret throw app trace fst];
      simpl; intros H;
      repeat match type of H with
             | _ \/ _ => destruct H as [H | H]
             end;
      try discriminate H; try contradiction;
      injection H as <-; reflexivity.
Qed.

Lemma vscode_recommendations_witness :
  eslint (Sample.config InitMode.Game true true true true PackageManager.Yarn3)
  = true
  /\ In "esbenp.prettier-vscode"
       (vscodeRecommendations
          (Sample.config InitMode.Game true true true true
             PackageManager.Yarn3))
  /\ In (ECmd "yarn dlx @yarnpkg/sdks vscode")
       (trace
          (configureVscode Sample.quiet
             (Sample.config InitMode.Game true true true true
                PackageManager.Yarn3))).
Proof.
  destruct (vscode_recommendations Sample.quiet
              (Sample.config InitMode.Game true true true true
                 PackageManager.Yarn3))
    as (_ & _ & Hfmt & _ & _ & Hsdk & _).
  split; [reflexivity |]. split.
  - apply Hfmt. reflexivity.
  - apply Hsdk. reflexivity.
Defined.

(** X17: the editor settings always enable the workspace-TypeScript prompt;
    with neither linter nor formatter they hold nothing else; the two
    linter keys ([eslint.run] on type, [eslint.format.enable]) are present
    exactly when the linter is enabled; and a language block is present
    exactly when the linter or the formatter is enabled, in which case it
    enables format-on-save. *)
Theorem vscode_settings_shape cfg :
  getProp (vscodeSettings cfg) "typescript.enablePromptUseWorkspaceTsdk"
  = Some (JBool true)
  /\ (eslint cfg = false -> prettier cfg = false ->
      vscodeSettings cfg
      = [("typescript.enablePromptUseWorkspaceTsdk", JBool true)])
  /\ (getProp (vscodeSettings cfg) "eslint.run" = Some (JStr "onType")
      <-> eslint cfg = true)
  /\ (getProp (vscodeSettings cfg) "eslint.format.enable" = Some (JBool true)
      <-> eslint cfg = true)
  /\ (forall block,
        In block ["[typescript]"; "[typescriptreact]"] ->
        (getProp (vscodeSettings cfg) block <> None
         <-> eslint cfg = true \/ prettier cfg = true)
        /\ (forall v,
              getProp (vscodeSettings cfg) block = Some v ->
              member v "editor.formatOnSave" = Some (JBool true))).
Proof.
  unfold vscodeSettings.
  split; [| split; [| split; [| split]]].
  - destruct (eslint cfg), (prettier cfg); reflexivity.
  - intros -> ->. reflexivity.
  - destruct (eslint cfg), (prettier cfg); simpl; split; intros H;
      try reflexivity; discriminate H.
  - destruct (eslint cfg), (prettier cfg); simpl; split; intros H;
      try reflexivity; discriminate H.
  - intros block Hblock. simpl in Hblock.
    destruct Hblock as [<- | [<- | []]];
      destruct (eslint cfg), (prettier cfg); simpl; split;
      try (split; intros H; auto; try discriminate;
           try (exfalso; apply H; reflexivity);
           destruct H as [H | H]; discriminate H);
      intros v H; try discriminate H; injection H as <-; reflexivity.
Qed.

Lemma vscode_settings_shape_witness :
  eslint (Sample.config InitMode.Game true false false true PackageManager.NPM)
  = false
  /\ prettier
       (Sample.config InitMode.Game true false false true PackageManager.NPM)
     = false
  /\ vscodeSettings
       (Sample.config InitMode.Game true false false true PackageManager.NPM)
     = [("typescript.enablePromptUseWorkspaceTsdk", JBool true)].
Proof.
  split; [reflexivity |]. split; [reflexivity |].
  apply (proj1 (proj2 (vscode_settings_shape
                         (Sample.config InitMode.Game true false false true
                            PackageManager.NPM))));
    reflexivity.
Defined.

(** ** An unreadable manifest *)

(** X18: when the init command succeeds but the manifest cannot be read, or
    reads as [null], the manifest step throws (the read's own error in the
    first case) and writes nothing. *)
Theorem unreadable_manifest host cfg stdout :
  exec host
    (PackageManagerCommands.init (packageManagerCommands (packageManager cfg)))
  = ExecOk stdout ->
  (forall reason,
     readJson host (InCwd paths.packageJson) = Rejected reason ->
     initializePackageJson host cfg
     = ([EBenchmark "Initializing package.json..";
         ECmd (PackageManagerCommands.init
                 (packageManagerCommands (packageManager cfg)));
         EReadJson (InCwd paths.packageJson)],
        Thrown reason))
  /\ (readJson host (InCwd paths.packageJson) = Fulfilled JNull ->
      exists err,
        initializePackageJson host cfg
        = ([EBenchmark "Initializing package.json..";
            ECmd (PackageManagerCommands.init
                    (packageManagerCommands (packageManager cfg)));
            EReadJson (InCwd paths.packageJson)],
           Thrown err)).
Proof.
  intros Hexec.
  unfold initializePackageJson, benchmark, cmd, fs_readJson, rewriteManifest.
  cbv zeta. rewrite Hexec.
  split.
  - intros reason ->. reflexivity.
  - intros ->. eexists. reflexivity.
Qed.

Lemma unreadable_manifest_witness :
  readJson (Sample.withManifest Sample.quiet (Fulfilled JNull))
    (InCwd paths.packageJson)
  = Fulfilled JNull
  /\ exists err,
       initializePackageJson
         (Sample.withManifest Sample.quiet (Fulfilled JNull))
         (Sample.config InitMode.Game true true true true PackageManager.NPM)
       = ([EBenchmark "Initializing package.json.."; ECmd "npm init -y";
           EReadJson (InCwd paths.packageJson)],
          Thrown err).
Proof.
  split; [reflexivity |].
  apply (proj2 (unreadable_manifest
                  (Sample.withManifest Sample.quiet (Fulfilled JNull))
                  (Sample.config InitMode.Game true true true true
                     PackageManager.NPM)
                  "" eq_refl)).
  reflexivity.
Defined.

(** ** Package mode *)

(** X19: in package mode the rewritten manifest also carries [types] (the
    declaration entry point), [files] (the build output without build-info
    files) and [publishConfig] (public access), and every field other than
    the six the rewrite sets (name, main, types, files, publishConfig,
    scripts) is as it was read. *)
Theorem package_publish_fields build props :
  exists written,
    rewriteManifest InitMode.Package build (JObj props)
    = ret (JObj written)
    /\ getProp written "types" = Some (JStr "out/index.d.ts")
    /\ getProp written "files"
       = Some (JArr [JStr "out"; JStr "!**/*.tsbuildinfo"])
    /\ getProp written "publishConfig"
       = Some (JObj [("access", JStr "public")])
    /\ (forall k,
          ~ In k ["name"; "main"; "types"; "files"; "publishConfig";
                  "scripts"] ->
          getProp written k = getProp props k).
Proof.
  unfold rewriteManifest, packageFields.
  cbn [bind ret assign member InitMode.eqb app].
  eexists. split; [reflexivity |].
  split; [prop_lookup; reflexivity |].
  split; [prop_lookup; reflexivity |].
  split; [prop_lookup; reflexivity |].
  intros k Hk.
  repeat (rewrite getProp_setProp_other
            by (intros ->; apply Hk; simpl; tauto)).
  reflexivity.
Qed.

Lemma package_publish_fields_witness :
  exists written,
    rewriteManifest InitMode.Package "npm run build" Sample.manifest
    = ret (JObj written)
    /\ getProp written "version" = Some (JStr "1.0.0")
    /\ getProp written "types" = Some (JStr "out/index.d.ts").
Proof.
  destruct (package_publish_fields "npm run build"
              [("name", JStr "my-project"); ("version", JStr "1.0.0");
               ("main", JStr "index.js");
               ("scripts", JObj [("test", JStr "exit 1")])])
    as (written & Hrun & Htypes & _ & _ & Hkeep).
  exists written. split; [exact Hrun |]. split; [| exact Htypes].
  rewrite (Hkeep "version"); [reflexivity |].
  simpl. intros H.
  repeat match type of H with
         | _ \/ _ => destruct H as [H | H]
         end; try discriminate H; exact H.
Defined.

(** ** A run in which nothing fails *)

Lemma unrefused_bind_l host {A B : Type} (m : M A) (f : A -> M B) :
  unrefused host (bind m f) -> unrefused host m.
Proof. intros Hu e He. apply Hu. apply bind_trace_incl. exact He. Qed.

Lemma unrefused_bind_r host {A B : Type} (m : M A) (f : A -> M B) a :
  unrefused host (bind m f) -> outcome m = Returned a ->
  unrefused host (f a).
Proof.
  intros Hu Ha e He. apply Hu.
  rewrite (proj1 (bind_Returned m f a Ha)). apply in_or_app. right. exact He.
Qed.

Lemma smooth_bind host {A B : Type} (m : M A) (f : A -> M B) :
  smooth host m ->
  (forall a, outcome m = Returned a -> smooth host (f a)) ->
  smooth host (bind m f).
Proof.
  intros Hm Hf Hu.
  destruct (Hm (unrefused_bind_l host m f Hu)) as [a Ha].
  destruct (Hf a Ha (unrefused_bind_r host m f a Hu Ha)) as [b Hb].
  exists b. rewrite (proj2 (bind_Returned m f a Ha)). exact Hb.
Qed.

Lemma smooth_try_catch host {A : Type} (m : M A) h :
  smooth host m -> smooth host (try_catch m h).
Proof.
  intros Hm Hu.
  assert (Hum : unrefused host m).
  { intros e He. apply Hu. destruct m as [t [a | err | c]]; try exact He.
    simpl. destruct (h err) as [t' r]. simpl. apply in_or_app. left. exact He. }
  destruct (Hm Hum) as [a Ha]. exists a.
  destruct m as [t [a' | err | c]]; try discriminate Ha. exact Ha.
Qed.

Lemma smooth_cmd host c : smooth host (cmd host c).
Proof.
  intros Hu. specialize (Hu (ECmd c)). revert Hu.
  unfold cmd, refused. destruct (exec host c) as [stdout | error]; simpl.
  - intros _. exists stdout. reflexivity.
  - intros Hu. specialize (Hu (or_introl eq_refl)). discriminate Hu.
Qed.

Lemma smooth_guarded host e :
  writesFile e = true -> smooth host (guarded host e).
Proof.
  intros Hw Hu. specialize (Hu e). revert Hu. unfold guarded.
  destruct e; try discriminate Hw; unfold refused;
    match goal with
    | |- context [fsFault host ?ev] => destruct (fsFault host ev)
    end; simpl; intros Hu;
    first [ exists tt; reflexivity
          | specialize (Hu (or_introl eq_refl)); discriminate Hu ].
Qed.

Lemma smooth_readJson host p : smooth host (fs_readJson host p).
Proof.
  intros Hu. specialize (Hu (EReadJson p)). revert Hu.
  unfold fs_readJson, refused. destruct (readJson host p) as [v | reason];
    simpl.
  - intros _. exists v. reflexivity.
  - intros Hu. specialize (Hu (or_introl eq_refl)). discriminate Hu.
Qed.

Lemma smooth_readFile host p : smooth host (fs_readFile host p).
Proof.
  intros Hu. specialize (Hu (EReadFile p)). revert Hu.
  unfold fs_readFile, refused. destruct (readFile host p) as [v | reason];
    simpl.
  - intros _. exists v. reflexivity.
  - intros Hu. specialize (Hu (or_introl eq_refl)). discriminate Hu.
Qed.

Lemma readJson_Returned host p v :
  outcome (fs_readJson host p) = Returned v -> readJson host p = Fulfilled v.
Proof.
  unfold fs_readJson. destruct (readJson host p); simpl; intros H;
    [injection H as <-; reflexivity | discriminate H].
Qed.

Lemma readFile_Returned host p v :
  outcome (fs_readFile host p) = Returned v -> readFile host p = Fulfilled v.
Proof.
  unfold fs_readFile. destruct (readFile host p); simpl; intros H;
    [injection H as <-; reflexivity | discriminate H].
Qed.

Lemma smooth_when host b (step : M unit) :
  (b = true -> smooth host step) -> smooth host (when b step).
Proof.
  destruct b; simpl; intros H; [apply H; reflexivity |].
  intros _. exists tt. reflexivity.
Qed.

Ltac smooth_step :=
  match goal with
  | |- smooth _ (bind _ _) =>
      let a := fresh "a" in
      let Ha := fresh "Ha" in
      apply smooth_bind;
      [| intros a Ha;
         try (cbn [outcome snd ret await assign js_in] in Ha;
              injection Ha as <-)]
  | |- smooth _ (try_catch _ _) => apply smooth_try_catch
  | |- smooth _ (cmd _ _) => apply smooth_cmd
  | |- smooth _ (guarded _ _) => apply smooth_guarded; reflexivity
  | |- smooth _ (fs_readJson _ _) => apply smooth_readJson
  | |- smooth _ (fs_readFile _ _) => apply smooth_readFile
  | |- smooth _ (if ?b then _ else _) => destruct b
  | |- smooth _ _ => intros _; eexists; reflexivity
  end.

Ltac smooth_next :=
  apply smooth_bind; [solve [repeat smooth_step] | intros ? ?].

Lemma initializePackageJson_smooth host cfg props :
  readJson host (InCwd paths.packageJson) = Fulfilled (JObj props) ->
  smooth host (initializePackageJson host cfg).
Proof.
  intros Hjson.
  unfold initializePackageJson, benchmark, fs_outputFile. cbv zeta.
  do 3 smooth_next.
  match goal with
  | H : outcome (fs_readJson _ _) = Returned _ |- _ =>
      apply readJson_Returned in H; rewrite Hjson in H; injection H as <-
  end.
  unfold rewriteManifest, packageFields.
  repeat smooth_step.
Qed.

Lemma initializeGit_smooth host : smooth host (initializeGit host).
Proof.
  unfold initializeGit, benchmark, fs_copy. repeat smooth_step.
Qed.

Lemma installDependencies_smooth host cfg :
  smooth host (installDependencies host cfg).
Proof.
  unfold installDependencies, benchmark. cbv zeta. repeat smooth_step.
Qed.

Lemma setupYarn3_smooth host :
  (forall text,
     readFile host (InCwd paths.yarnnc) = Fulfilled text ->
     exists doc, YAML_parse host text = Fulfilled (JObj doc)) ->
  smooth host (setupYarn3 host).
Proof.
  intros Hyaml.
  unfold setupYarn3, benchmark, fs_remove, fs_writeFile.
  do 4 smooth_next.
  match goal with
  | H : outcome (fs_readFile _ _) = Returned _ |- _ =>
      apply readFile_Returned in H;
      destruct (Hyaml _ H) as [doc Hdoc]; rewrite Hdoc
  end.
  repeat smooth_step.
Qed.

Lemma configureEslint_smooth host cfg :
  (prettier cfg = true ->
   forall text,
     readFile host (InCwd paths.eslintrc) = Fulfilled text ->
     exists doc, YAML_parse host text = Fulfilled (JObj doc)) ->
  smooth host (configureEslint host cfg).
Proof.
  intros Hyaml.
  unfold configureEslint, benchmark, fs_copy, fs_writeFile.
  do 3 smooth_next.
  destruct (prettier cfg); [| smooth_step].
  smooth_next.
  match goal with
  | H : outcome (fs_readFile _ _) = Returned _ |- _ =>
      apply readFile_Returned in H;
      destruct (Hyaml eq_refl _ H) as [doc Hdoc]; rewrite Hdoc
  end.
  repeat smooth_step.
Qed.

Lemma configurePrettier_smooth host : smooth host (configurePrettier host).
Proof.
  unfold configurePrettier, benchmark, fs_copy. repeat smooth_step.
Qed.

Lemma configureVscode_smooth host cfg :
  smooth host (configureVscode host cfg).
Proof.
  unfold configureVscode, benchmark, fs_outputFile. repeat smooth_step.
Qed.

Lemma copyTemplate_smooth host cfg : smooth host (copyTemplate host cfg).
Proof.
  unfold copyTemplate, benchmark, fs_copy. repeat smooth_step.
Qed.

Lemma compile_smooth host : smooth host (compile host).
Proof. unfold compile, benchmark. repeat smooth_step. Qed.

Lemma pipeline_smooth host cfg props :
  readJson host (InCwd paths.packageJson) = Fulfilled (JObj props) ->
  (packageManager cfg = PackageManager.Yarn3 ->
   forall text,
     readFile host (InCwd paths.yarnnc) = Fulfilled text ->
     exists doc, YAML_parse host text = Fulfilled (JObj doc)) ->
  (eslint cfg = true -> prettier cfg = true ->
   forall text,
     readFile host (InCwd paths.eslintrc) = Fulfilled text ->
     exists doc, YAML_parse host text = Fulfilled (JObj doc)) ->
  smooth host (pipeline host cfg).
Proof.
  intros Hjson Hyarn Heslint. unfold pipeline.
  apply smooth_bind; [exact (initializePackageJson_smooth host cfg props Hjson) |].
  intros _ _.
  apply smooth_bind; [apply smooth_when; intros _; apply initializeGit_smooth |].
  intros _ _.
  apply smooth_bind; [apply installDependencies_smooth |]. intros _ _.
  apply smooth_bind.
  { apply smooth_when. intros Hm. apply setupYarn3_smooth. apply Hyarn.
    destruct (packageManager cfg); try discriminate Hm. reflexivity. }
  intros _ _.
  apply smooth_bind.
  { apply smooth_when. intros He. apply configureEslint_smooth.
    intros Hp. exact (Heslint He Hp). }
  intros _ _.
  apply smooth_bind;
    [apply smooth_when; intros _; apply configurePrettier_smooth |].
  intros _ _.
  apply smooth_bind;
    [apply smooth_when; intros _; apply configureVscode_smooth |].
  intros _ _.
  apply smooth_bind; [apply copyTemplate_smooth |]. intros _ _.
  apply compile_smooth.
Qed.

(** X20: when the user aborts no question, the template directory can be
    listed, no candidate path leads to a special file or an unreadable
    directory, the scan finds no conflict, the host makes none of the
    operations of the run fail (its commands, writes, copies, removals and
    reads), the manifest reads as an object, and the YAML files the run
    parses ([.yarnrc.yml] for yarn v3, [.eslintrc.yml] when linter and
    formatter are both enabled) parse to mappings, the command completes and
    has started exactly the steps its configuration enables, in order. *)
Theorem cooperative_host_completes host argv initMode cfg fileNames props :
  outcome (resolveOptions host argv initMode (toolAvailability host))
  = Returned cfg ->
  templateFiles host (template cfg) = Fulfilled fileNames ->
  (forall p, In p (paths.values ++ fileNames)%list ->
             listingError (cwdEntry host p) = None) ->
  filter (detects host) (paths.values ++ fileNames)%list = [] ->
  (forall e, In e (trace (init host argv initMode)) -> refused host e = false) ->
  readJson host (InCwd paths.packageJson) = Fulfilled (JObj props) ->
  (packageManager cfg = PackageManager.Yarn3 ->
   forall text,
     readFile host (InCwd paths.yarnnc) = Fulfilled text ->
     exists doc, YAML_parse host text = Fulfilled (JObj doc)) ->
  (eslint cfg = true -> prettier cfg = true ->
   forall text,
     readFile host (InCwd paths.eslintrc) = Fulfilled text ->
     exists doc, YAML_parse host text = Fulfilled (JObj doc)) ->
  outcome (init host argv initMode) = Returned tt
  /\ labels (trace (init host argv initMode)) = plannedSteps cfg.
Proof.
  intros Hret Hfiles Hs Hclean Hr Hjson Hyarn Heslint.
  destruct (checkConflicts_run host (template cfg) fileNames Hfiles Hs)
    as (Hcheck & Hquiet & _).
  rewrite Hclean in Hcheck. simpl in Hcheck.
  destruct (bind_Returned (probeTools host)
              (fun tools =>
                 cfg <- resolveOptions host argv initMode tools;;
                 checkConflicts host (template cfg);; pipeline host cfg)
              (toolAvailability host) eq_refl) as [Ht1 Ho1].
  destruct (bind_Returned
              (resolveOptions host argv initMode (toolAvailability host))
              (fun cfg => checkConflicts host (template cfg);;
                          pipeline host cfg)
              cfg Hret) as [Ht2 Ho2].
  destruct (bind_Returned (checkConflicts host (template cfg))
              (fun _ => pipeline host cfg) tt Hcheck) as [Ht3 Ho3].
  assert (Hpipe : outcome (pipeline host cfg) = Returned tt).
  { destruct (pipeline_smooth host cfg props Hjson Hyarn Heslint) as [[] Hp];
      [| exact Hp].
    intros e He. apply Hr. unfold init. rewrite Ht1, Ht2, Ht3.
    repeat (apply in_or_app; right). exact He. }
  unfold init. split.
  - rewrite Ho1, Ho2, Ho3. exact Hpipe.
  - rewrite Ht1, Ht2, Ht3, !labels_app.
    assert (Hlab : forall t, Forall (fun e => preflight e = true) t ->
                             labels t = []).
    { intros t Ht. apply labels_quiet.
      apply (Forall_impl _ (P := fun e => preflight e = true)); [| exact Ht].
      intros e He. unfold preflight in He.
      apply andb_true_iff in He. destruct He as [He _].
      destruct (startsStep e); [discriminate He | reflexivity]. }
    rewrite (Hlab _ Hquiet).
    rewrite (Hlab _ (resolveOptions_preflight host argv initMode
                       (toolAvailability host))).
    simpl app.
    destruct (pipeline_Returned host cfg Hpipe) as (Htrace & _ & _).
    rewrite Htrace, !labels_app.
    rewrite initializePackageJson_labels, installDependencies_labels,
      copyTemplate_labels, compile_labels.
    rewrite (when_labels _ _ _ (initializeGit_labels host)),
      (when_labels _ _ _ (setupYarn3_labels host)),
      (when_labels _ _ _ (configureEslint_labels host cfg)),
      (when_labels _ _ _ (configurePrettier_labels host)),
      (when_labels _ _ _ (configureVscode_labels host cfg)).
    reflexivity.
Qed.

Lemma cooperative_host_completes_witness :
  outcome (init Sample.lintable (Sample.withYes true) InitMode.Model)
  = Returned tt
  /\ labels (trace (init Sample.lintable (Sample.withYes true) InitMode.Model))
     = ["Initializing package.json.."; "Initializing Git..";
        "Installing dependencies.."; "Configuring ESLint..";
        "Configuring prettier.."; "Configuring vscode..";
        "Copying template files.."; "Compiling.."].
Proof.
  apply (cooperative_host_completes Sample.lintable (Sample.withYes true)
           InitMode.Model
           (Sample.config InitMode.Model true true true true
              PackageManager.NPM)
           ["default.project.json"; "src"]
           [("name", JStr "my-project"); ("version", JStr "1.0.0");
            ("main", JStr "index.js");
            ("scripts", JObj [("test", JStr "exit 1")])]).
  - reflexivity.
  - reflexivity.
  - intros p Hin. reflexivity.
  - reflexivity.
  - intros e He. destruct e; reflexivity.
  - reflexivity.
  - intros Hm. discriminate Hm.
  - intros _ _ text Htext. injection Htext as <-.
    exists [("root", JBool true)]. reflexivity.
Defined.
